(** * The coordinate / image / banner relay of [server.js]

    A shallow embedding of the Express + Socket.IO server: the three
    module-level arrays become one [state] record, every route handler
    becomes a function from the request data and the state to the new
    state, the HTTP outcome and the list of Socket.IO emissions, in the
    order the handler performs them. *)

From Stdlib Require Import ZArith String.
From stdpp Require Import base option list strings.

Local Open Scope string_scope.
Local Open Scope list_scope.
Local Open Scope nat_scope.

(** ** JavaScript values

    What [express.json()] hands to a handler, and what the handlers build
    from it.  Numbers are modelled by the integers [Z], which the clock
    readings and the literals 0 and 1 are: the handlers look at a number
    only through [typeof], truthiness, [===] and membership in [[0, 1]].
    An array carries, besides its elements, the named properties that were
    assigned to it later ([own]); a freshly parsed array has none.  An
    object is the sequence of its properties in insertion order, one
    binding per name. *)

#[warnings="-register-all"]
Inductive value : Type :=
  | VUndefined
  | VNull
  | VBool (b : bool)
  | VNumber (n : Z)
  | VString (s : string)
  | VArray (elems : list value) (own : list (string * value))
  | VObject (props : list (string * value)).

(** [!!v] *)
Definition truthy (v : value) : bool :=
  match v with
  | VUndefined | VNull => false
  | VBool b => b
  | VNumber n => negb (n =? 0)%Z
  | VString s => negb (String.eqb s "")
  | VArray _ _ | VObject _ => true
  end.

(** [a || b] on values. *)
Definition js_or (a b : value) : value := if truthy a then a else b.

(** [typeof v === "number"] *)
Definition is_number (v : value) : bool :=
  match v with VNumber _ => true | _ => false end.

(** [Array.isArray(v)] *)
Definition isArray (v : value) : bool :=
  match v with VArray _ _ => true | _ => false end.

(** [a === b].  Primitives compare by value.  Two arrays or objects are
    equal only when they are the same reference; every comparison the
    server makes is between values parsed from two different requests (or
    a request value and a literal), so on arrays and objects it is false. *)
Definition strict_equals (a b : value) : bool :=
  match a, b with
  | VUndefined, VUndefined => true
  | VNull, VNull => true
  | VBool p, VBool q => Bool.eqb p q
  | VNumber m, VNumber n => (m =? n)%Z
  | VString s, VString t => String.eqb s t
  | _, _ => false
  end.

(** [l.includes(v)] for a list of literals. *)
Definition includes (l : list value) (v : value) : bool :=
  existsb (strict_equals v) l.

(** The binding of name [k] in a property list, [undefined] when absent. *)
Fixpoint lookup_prop (ps : list (string * value)) (k : string) : value :=
  match ps with
  | [] => VUndefined
  | (k', v) :: ps' => if String.eqb k' k then v else lookup_prop ps' k
  end.

(** Assignment of a named property: an existing binding is replaced where
    it stands, a new one goes last. *)
Fixpoint store_prop (ps : list (string * value)) (k : string) (v : value)
  : list (string * value) :=
  match ps with
  | [] => [(k, v)]
  | (k', v') :: ps' =>
      if String.eqb k' k then (k', v) :: ps' else (k', v') :: store_prop ps' k v
  end.

(** [o.k] (also what the pattern [const { k } = o] reads).  [None] is the
    [TypeError] of reading a property of [undefined] or [null].  The names
    the server reads are no index and no built-in property, so a primitive
    answers [undefined] and an array answers from its named properties. *)
Definition get (o : value) (k : string) : option value :=
  match o with
  | VUndefined | VNull => None
  | VBool _ | VNumber _ | VString _ => Some VUndefined
  | VArray _ own => Some (lookup_prop own k)
  | VObject ps => Some (lookup_prop ps k)
  end.

(** [o.k = v], giving the value [o] denotes afterwards.  [None] is the
    [TypeError] on [undefined] and [null].  The file is a CommonJS module
    without a strict-mode directive, so the assignment to a property of a
    boolean, number or string is silently dropped. *)
Definition put (o : value) (k : string) (v : value) : option value :=
  match o with
  | VUndefined | VNull => None
  | VBool _ | VNumber _ | VString _ => Some o
  | VArray elems own => Some (VArray elems (store_prop own k v))
  | VObject ps => Some (VObject (store_prop ps k v))
  end.

(** [a.length] of an array. *)
Definition array_length (a : value) : nat :=
  match a with VArray elems _ => length elems | _ => 0%nat end.

(** The [i]-th value an array pattern [[p0, p1, ...] = a] binds. *)
Definition element (a : value) (i : nat) : value :=
  match a with
  | VArray elems _ => default VUndefined (elems !! i)
  | _ => VUndefined
  end.

(** A pattern variable with a default, [p = d]. *)
Definition or_default (v d : value) : value :=
  match v with VUndefined => d | _ => v end.

(** ** The stored records *)

Module Coordinate.

Record t : Type := mk
  { distance : value; x : value; z : value; photoCapture : value;
    timestamp : Z }.

End Coordinate.

Module Image.

Record t : Type := mk { url : value; metadata : value; timestamp : Z }.

(** The record after [img.metadata = m]. *)
Definition with_metadata (img : t) (m : value) : t :=
  mk (url img) m (timestamp img).

End Image.

Module Banner.

Record t : Type := mk
  { imageUrl : value; brand : value; position : value; type : value;
    timestamp : Z }.

(** The banner record as the object it is, for the place where it is
    stored inside another value. *)
Definition to_value (b : t) : value :=
  VObject [("imageUrl", imageUrl b); ("brand", brand b);
           ("position", position b); ("type", type b);
           ("timestamp", VNumber (timestamp b))].

End Banner.

(** ** The server state

    [coordinateHistory], [imageHistory] and [bannerDataHistory].  The
    records of one array are built from separately parsed request bodies,
    so no two of them share a mutable part, and nothing outside the arrays
    writes to them: a value per record is a faithful store. *)

Record state : Type := State
  { coordinateHistory : list Coordinate.t;
    imageHistory : list Image.t;
    bannerDataHistory : list Banner.t }.

Definition MAX_HISTORY_LENGTH : nat := 100.

Definition initial : state := State [] [] [].

(** ** What a handler sends *)

Inductive audience : Type :=
  | AllClients   (* io.emit *)
  | ThisSocket.  (* socket.emit *)

Inductive payload : Type :=
  | NoPayload
  | OneCoordinate (c : Coordinate.t)
  | OneImage (i : Image.t)
  | Coordinates (cs : list Coordinate.t)
  | Images (imgs : list Image.t).

Record emission : Type := Emit
  { to : audience; event : string; data : payload }.

Inductive body : Type :=
  | ErrorBody (error : string)
  | StatusBody (status message : string)
  | BannerReceived (message : string) (data : Banner.t)
  | CoordinateList (cs : list Coordinate.t)
  | ImageList (imgs : list Image.t)
  | BannerList (bs : list Banner.t)
  | BannerBody (b : Banner.t).

Inductive outcome : Type :=
  | Reply (code : Z) (b : body)
  | Uncaught      (* an exception left the handler *)
  | NoReply.      (* not an HTTP request *)

Definition result : Type := state * outcome * list emission.

(** ** The route handlers

    [now] is what [Date.now()] returns while the request is handled. *)

(** [h.push(c); if (h.length > MAX_HISTORY_LENGTH) h.shift();] *)
Definition push_bounded (h : list Coordinate.t) (c : Coordinate.t)
  : list Coordinate.t :=
  let pushed := h ++ [c] in
  if (MAX_HISTORY_LENGTH <? length pushed)%nat then drop 1 pushed else pushed.

(** [app.post("/api/coordinates", ...)] *)
Definition post_coordinates (now : Z) (req_body : value) (s : state) : result :=
  match get req_body "coordinates" with
  | None => (s, Uncaught, [])
  | Some coordinates =>
      if negb (truthy coordinates) || negb (isArray coordinates)
         || (array_length coordinates <? 3)%nat
      then (s, Reply 400 (ErrorBody
              "Invalid coordinates format. Expected [distance, x, z, photoCapture]"),
            [])
      else
        let distance := element coordinates 0 in
        let x := element coordinates 1 in
        let z := element coordinates 2 in
        let photoCapture := or_default (element coordinates 3) (VNumber 0) in
        if negb (is_number distance) || negb (is_number x) || negb (is_number z)
        then (s, Reply 400 (ErrorBody "All coordinate values must be numbers"), [])
        else if negb (strict_equals photoCapture VUndefined)
                && negb (includes [VNumber 0; VNumber 1] photoCapture)
        then (s, Reply 400 (ErrorBody "Photo capture value must be 0 or 1"), [])
        else
          let coordinateData :=
            Coordinate.mk distance x z (js_or photoCapture (VNumber 0)) now in
          (State (push_bounded (coordinateHistory s) coordinateData)
                 (imageHistory s) (bannerDataHistory s),
           Reply 200 (StatusBody "success" "Coordinates received"),
           [Emit AllClients "new-coordinate" (OneCoordinate coordinateData)])
  end.

(** [app.post("/api/image", ...)] *)
Definition post_image (now : Z) (req_body : value) (s : state) : result :=
  match get req_body "imageUrl", get req_body "metadata" with
  | Some imageUrl, Some metadata =>
      if negb (truthy imageUrl)
      then (s, Reply 400 (ErrorBody "No image URL provided"), [])
      else
        let imageData := Image.mk imageUrl (js_or metadata (VObject [])) now in
        let images := imageData :: imageHistory s in
        (State (coordinateHistory s) images (bannerDataHistory s),
         Reply 200 (StatusBody "success" "Image URL received"),
         [Emit AllClients "new-image" (OneImage imageData);
          Emit AllClients "image-history" (Images images)])
  | _, _ => (s, Uncaught, [])
  end.

(** [imageHistory.findIndex(img => img.url === imageUrl)], with the record
    found; [None] stands for the index [-1]. *)
Definition findIndex_url (imageUrl : value) (images : list Image.t)
  : option (nat * Image.t) :=
  list_find (λ img, Is_true (strict_equals (Image.url img) imageUrl)) images.

(** The reply of the [catch] block. *)
Definition internal_error : outcome :=
  Reply 500 (ErrorBody "Internal server error").

(** The statements of [app.post("/api/banner_data", ...)] after the
    record is built: store it, look for the image, attach, notify, reply
    201.  They run inside [try]: what was assigned before an exception
    stays assigned, and the [catch] block replies. *)
Definition attach_banner (bannerData : Banner.t) (s : state) : result :=
  let banners := bannerDataHistory s ++ [bannerData] in
  match findIndex_url (Banner.imageUrl bannerData) (imageHistory s) with
  | None =>
      (State (coordinateHistory s) (imageHistory s) banners,
       Reply 201 (BannerReceived "Banner data received" bannerData),
       [])
  | Some (imageIndex, img) =>
      match put (Image.metadata img) "bannerData"
                (Banner.to_value bannerData) with
      | None =>
          (State (coordinateHistory s) (imageHistory s) banners,
           internal_error, [])
      | Some m =>
          let images :=
            <[imageIndex := Image.with_metadata img m]> (imageHistory s) in
          (State (coordinateHistory s) images banners,
           Reply 201 (BannerReceived "Banner data received" bannerData),
           [Emit AllClients "image-history" (Images images)])
      end
  end.

(** [app.post("/api/banner_data", ...)] *)
Definition post_banner_data (now : Z) (req_body : value) (s : state) : result :=
  match get req_body "imageUrl", get req_body "brand",
        get req_body "position", get req_body "type" with
  | Some imageUrl, Some brand, Some position, Some type =>
      if negb (truthy imageUrl) || negb (truthy brand)
         || negb (truthy position) || negb (truthy type)
      then (s, Reply 400 (ErrorBody "Missing required fields"), [])
      else attach_banner (Banner.mk imageUrl brand position type now) s
  | _, _, _, _ => (s, internal_error, [])
  end.

(** [app.get("/api/coordinates")], [app.get("/api/images")],
    [app.get("/api/banner_data")] *)
Definition get_coordinates (s : state) : result :=
  (s, Reply 200 (CoordinateList (coordinateHistory s)), []).

Definition get_images (s : state) : result :=
  (s, Reply 200 (ImageList (imageHistory s)), []).

Definition get_banner_data (s : state) : result :=
  (s, Reply 200 (BannerList (bannerDataHistory s)), []).

(** [bannerDataHistory.find(item => item.imageUrl === imageUrl)]; the
    route parameter is a string. *)
Definition find_banner (imageUrl : string) (banners : list Banner.t)
  : option Banner.t :=
  snd <$> list_find
    (λ item, Is_true (strict_equals (Banner.imageUrl item) (VString imageUrl)))
    banners.

(** [app.get("/api/banner_data/:imageUrl")]; a banner record is an object,
    so [if (data)] asks whether one was found. *)
Definition get_banner_data_for (imageUrl : string) (s : state) : result :=
  match find_banner imageUrl (bannerDataHistory s) with
  | Some data => (s, Reply 200 (BannerBody data), [])
  | None =>
      (s, Reply 404 (ErrorBody "No banner data found for this image"), [])
  end.

(** [app.delete("/api/coordinates")], [app.delete("/api/images")],
    [app.delete("/api/all")] *)
Definition delete_coordinates (s : state) : result :=
  (State [] (imageHistory s) (bannerDataHistory s),
   Reply 200 (StatusBody "success" "Coordinates cleared"),
   [Emit AllClients "coordinates-cleared" NoPayload]).

Definition delete_images (s : state) : result :=
  (State (coordinateHistory s) [] (bannerDataHistory s),
   Reply 200 (StatusBody "success" "Images cleared"),
   [Emit AllClients "images-cleared" NoPayload]).

Definition delete_all (s : state) : result :=
  (State [] [] [],
   Reply 200 (StatusBody "success" "All data cleared"),
   [Emit AllClients "coordinates-cleared" NoPayload;
    Emit AllClients "images-cleared" NoPayload]).

(** [io.on("connection", ...)] *)
Definition on_connection (s : state) : result :=
  (s, NoReply,
   (if (0 <? length (coordinateHistory s))%nat
    then [Emit ThisSocket "coordinate-history" (Coordinates (coordinateHistory s))]
    else [])
   ++
   (if (0 <? length (imageHistory s))%nat
    then [Emit ThisSocket "image-history" (Images (imageHistory s))]
    else [])).

(** ** The server as a transition system *)

Inductive request : Type :=
  | PostCoordinates (now : Z) (req_body : value)
  | PostImage (now : Z) (req_body : value)
  | PostBannerData (now : Z) (req_body : value)
  | GetCoordinates
  | GetImages
  | GetBannerData
  | GetBannerDataFor (imageUrl : string)
  | DeleteCoordinates
  | DeleteImages
  | DeleteAll
  | Connection.

Definition handle (r : request) (s : state) : result :=
  match r with
  | PostCoordinates now b => post_coordinates now b s
  | PostImage now b => post_image now b s
  | PostBannerData now b => post_banner_data now b s
  | GetCoordinates => get_coordinates s
  | GetImages => get_images s
  | GetBannerData => get_banner_data s
  | GetBannerDataFor u => get_banner_data_for u s
  | DeleteCoordinates => delete_coordinates s
  | DeleteImages => delete_images s
  | DeleteAll => delete_all s
  | Connection => on_connection s
  end.

Definition state_of (r : result) : state := r.1.1.
Definition outcome_of (r : result) : outcome := r.1.2.
Definition emissions_of (r : result) : list emission := r.2.

(** The state after the requests [rs] were handled one after the other
    (the event loop runs each handler to completion). *)
Definition run (s : state) (rs : list request) : state :=
  foldl (λ st r, state_of (handle r st)) s rs.

Definition status_is (code : Z) (o : outcome) : Prop :=
  ∃ b, o = Reply code b.

(** The record an accepted [POST /api/coordinates] stores: the one the
    handler broadcasts as [new-coordinate]; [None] for a request that is
    turned down.  Validation does not look at the state. *)
Definition accepted_coordinate (now : Z) (req_body : value)
  : option Coordinate.t :=
  match emissions_of (post_coordinates now req_body initial) with
  | [Emit _ _ (OneCoordinate c)] => Some c
  | _ => None
  end.

(** The record an accepted [POST /api/image] stores: the one the handler
    broadcasts as [new-image]. *)
Definition accepted_image (now : Z) (req_body : value) : option Image.t :=
  match emissions_of (post_image now req_body initial) with
  | Emit _ _ (OneImage i) :: _ => Some i
  | _ => None
  end.

(** The record an accepted [POST /api/banner_data] stores: the one echoed
    in the 201 reply. *)
Definition accepted_banner (now : Z) (req_body : value) : option Banner.t :=
  match outcome_of (post_banner_data now req_body initial) with
  | Reply _ (BannerReceived _ b) => Some b
  | _ => None
  end.

(** Request [r] is a coordinate post that is accepted and stores [c]. *)
Definition posts_coordinate (r : request) (c : Coordinate.t) : Prop :=
  ∃ now req_body,
    r = PostCoordinates now req_body ∧ accepted_coordinate now req_body = Some c.

(** Request [r] is an image post that is accepted and stores [i]. *)
Definition posts_image (r : request) (i : Image.t) : Prop :=
  ∃ now req_body,
    r = PostImage now req_body ∧ accepted_image now req_body = Some i.

(** [img.url === imageUrl], the test of [findIndex]. *)
Definition url_matches (imageUrl : value) (img : Image.t) : Prop :=
  strict_equals (Image.url img) imageUrl = true.

(** [typeof v === "object" && v !== null]: the values that keep an
    assigned property. *)
Definition is_object (v : value) : bool :=
  match v with VArray _ _ | VObject _ => true | _ => false end.

(** [img.metadata.bannerData] *)
Definition bannerData_of (img : Image.t) : option value :=
  get (Image.metadata img) "bannerData".

(** The states the server can be in: what the requests handled since
    start-up have made of the empty arrays. *)
Definition reachable (s : state) : Prop := ∃ rs, s = run initial rs.

(** What the validation of the coordinate route lets through. *)
Definition well_formed_coordinate (c : Coordinate.t) : Prop :=
  is_number (Coordinate.distance c) = true
  ∧ is_number (Coordinate.x c) = true
  ∧ is_number (Coordinate.z c) = true
  ∧ (Coordinate.photoCapture c = VNumber 0
     ∨ Coordinate.photoCapture c = VNumber 1).

(** What the validation of the image route lets through. *)
Definition well_formed_image (i : Image.t) : Prop :=
  truthy (Image.url i) = true ∧ truthy (Image.metadata i) = true.

(** What the validation of the banner route lets through. *)
Definition well_formed_banner (b : Banner.t) : Prop :=
  truthy (Banner.imageUrl b) = true
  ∧ truthy (Banner.brand b) = true
  ∧ truthy (Banner.position b) = true
  ∧ truthy (Banner.type b) = true.

(** A state all of whose records passed validation. *)
Definition well_formed (s : state) : Prop :=
  Forall well_formed_coordinate (coordinateHistory s)
  ∧ Forall well_formed_image (imageHistory s)
  ∧ Forall well_formed_banner (bannerDataHistory s).

(** The three messages of the coordinate route. *)
Definition invalid_format : string :=
  "Invalid coordinates format. Expected [distance, x, z, photoCapture]".
Definition not_numbers : string := "All coordinate values must be numbers".
Definition bad_photo_capture : string := "Photo capture value must be 0 or 1".

Ltac unfold_handlers :=
  unfold handle, post_coordinates, post_image, post_banner_data,
    attach_banner, get_coordinates, get_images, get_banner_data, get_banner_data_for,
    delete_coordinates, delete_images, delete_all, on_connection,
    internal_error, state_of, outcome_of, emissions_of, status_is in *.

(** Case analysis on the next test of a handler. *)
Ltac case_if :=
  match goal with
  | |- context [if ?b then _ else _] => destruct b eqn:?
  end.

(** * Properties *)

(** ** Values *)

Lemma strict_equals_string (v : value) (u : string) :
  strict_equals v (VString u) = true ↔ v = VString u.
Proof.
  destruct v; simpl; try (split; [discriminate | congruence]).
  rewrite String.eqb_eq. split; congruence.
Qed.

Lemma lookup_store_prop (ps : list (string * value)) (k : string) (v : value) :
  lookup_prop (store_prop ps k v) k = v.
Proof.
  induction ps as [|[k' v'] ps IH]; simpl.
  - by rewrite String.eqb_refl.
  - destruct (String.eqb k' k) eqn:E; simpl; by rewrite E.
Qed.

Lemma lookup_store_prop_ne (ps : list (string * value)) (k j : string) (v : value) :
  k ≠ j → lookup_prop (store_prop ps k v) j = lookup_prop ps j.
Proof.
  intros Hne. induction ps as [|[k' v'] ps IH]; simpl.
  - destruct (String.eqb k j) eqn:E; [|done].
    by apply String.eqb_eq in E.
  - destruct (String.eqb k' k) eqn:E; simpl; [|by rewrite IH].
    apply String.eqb_eq in E. subst k'.
    destruct (String.eqb k j) eqn:E'; [|done].
    by apply String.eqb_eq in E'.
Qed.

(** ** Reads and clears *)

(** C6: [DELETE /api/all] leaves all three arrays empty, each of the three
    list routes then answers with the empty array, and the handler
    broadcasts exactly [coordinates-cleared] and then [images-cleared] to
    all clients. *)
Theorem delete_all_clears (s : state) :
  let s' := state_of (handle DeleteAll s) in
  coordinateHistory s' = []
  ∧ imageHistory s' = []
  ∧ bannerDataHistory s' = []
  ∧ emissions_of (handle DeleteAll s)
    = [Emit AllClients "coordinates-cleared" NoPayload;
       Emit AllClients "images-cleared" NoPayload]
  ∧ outcome_of (handle GetCoordinates s') = Reply 200 (CoordinateList [])
  ∧ outcome_of (handle GetImages s') = Reply 200 (ImageList [])
  ∧ outcome_of (handle GetBannerData s') = Reply 200 (BannerList []).
Proof. by unfold_handlers. Qed.

(** C9: [DELETE /api/coordinates] keeps the image and banner arrays,
    [DELETE /api/images] keeps the coordinate and banner arrays, and the
    four [GET] routes keep the whole state. *)
Theorem clears_and_reads_framed (s : state) :
  (imageHistory (state_of (handle DeleteCoordinates s)) = imageHistory s
   ∧ bannerDataHistory (state_of (handle DeleteCoordinates s))
     = bannerDataHistory s)
  ∧ (coordinateHistory (state_of (handle DeleteImages s)) = coordinateHistory s
     ∧ bannerDataHistory (state_of (handle DeleteImages s))
       = bannerDataHistory s)
  ∧ state_of (handle GetCoordinates s) = s
  ∧ state_of (handle GetImages s) = s
  ∧ state_of (handle GetBannerData s) = s
  ∧ ∀ imageUrl, state_of (handle (GetBannerDataFor imageUrl) s) = s.
Proof.
  unfold_handlers. simpl. split_and!; try done.
  intros u. by destruct (find_banner u (bannerDataHistory s)).
Qed.

(** ** Rejected requests *)

(** C8: a request that is answered with status 400 leaves the state as it
    was and emits nothing. *)
Theorem bad_request_atomic (r : request) (s : state) :
  status_is 400 (outcome_of (handle r s)) →
  state_of (handle r s) = s ∧ emissions_of (handle r s) = [].
Proof.
  intros [b Hb]. destruct r; unfold_handlers; simpl in *.
  - destruct (get req_body "coordinates") as [c|]; [|done].
    repeat (case_match; simplify_eq/=; try done).
  - destruct (get req_body "imageUrl"), (get req_body "metadata"); try done.
    case_match; simplify_eq/=; done.
  - destruct (get req_body "imageUrl"), (get req_body "brand"),
      (get req_body "position"), (get req_body "type"); try done.
    repeat (case_match; simplify_eq/=; try done).
  - done.
  - done.
  - done.
  - by destruct (find_banner imageUrl (bannerDataHistory s)).
  - done.
  - done.
  - done.
  - done.
Qed.

Lemma bad_request_atomic_witness :
  let s := State [] [Image.mk (VString "u") (VObject []) 1] [] in
  let r1 := PostCoordinates 7
              (VObject [("coordinates", VArray [VNumber 1; VNumber 2] [])]) in
  let r2 := PostImage 7 (VObject [("imageUrl", VString "")]) in
  let r3 := PostBannerData 7
              (VObject [("imageUrl", VString "u"); ("brand", VString "b")]) in
  (status_is 400 (outcome_of (handle r1 s))
   ∧ state_of (handle r1 s) = s ∧ emissions_of (handle r1 s) = [])
  ∧ (status_is 400 (outcome_of (handle r2 s))
     ∧ state_of (handle r2 s) = s ∧ emissions_of (handle r2 s) = [])
  ∧ (status_is 400 (outcome_of (handle r3 s))
     ∧ state_of (handle r3 s) = s ∧ emissions_of (handle r3 s) = []).
Proof.
  intros s r1 r2 r3.
  assert (status_is 400 (outcome_of (handle r1 s))) as H1
    by (eexists; reflexivity).
  assert (status_is 400 (outcome_of (handle r2 s))) as H2
    by (eexists; reflexivity).
  assert (status_is 400 (outcome_of (handle r3 s))) as H3
    by (eexists; reflexivity).
  split_and!; try assumption.
  - apply (bad_request_atomic r1 s H1).
  - apply (bad_request_atomic r1 s H1).
  - apply (bad_request_atomic r2 s H2).
  - apply (bad_request_atomic r2 s H2).
  - apply (bad_request_atomic r3 s H3).
  - apply (bad_request_atomic r3 s H3).
Defined.

(** ** New connections *)

(** C7: a new connection is sent the coordinate snapshot exactly when the
    coordinate array is non-empty and the image snapshot exactly when the
    image array is non-empty, both to that socket only; nothing else is
    sent, whatever the banner array holds, so with both arrays empty the
    client receives nothing.  The state is not touched. *)
Theorem connection_seed (s : state) :
  let es := emissions_of (handle Connection s) in
  (∀ e, e ∈ es ↔
     (e = Emit ThisSocket "coordinate-history" (Coordinates (coordinateHistory s))
      ∧ coordinateHistory s ≠ [])
     ∨ (e = Emit ThisSocket "image-history" (Images (imageHistory s))
        ∧ imageHistory s ≠ []))
  ∧ NoDup es
  ∧ (∀ bs, emissions_of
             (handle Connection (State (coordinateHistory s) (imageHistory s) bs))
           = es)
  ∧ (coordinateHistory s = [] → imageHistory s = [] → es = [])
  ∧ state_of (handle Connection s) = s.
Proof.
  destruct s as [cs imgs bs]. unfold_handlers. simpl.
  split_and!; [| | done | by intros -> -> | done].
  - intros e. destruct cs, imgs; simpl; rewrite ?elem_of_cons, ?elem_of_nil;
      intuition congruence.
  - destruct cs, imgs; simpl; repeat constructor;
      rewrite ?elem_of_cons, ?elem_of_nil; intuition congruence.
Qed.

Lemma connection_seed_witness :
  let c := Coordinate.mk (VNumber 1) (VNumber 2) (VNumber 3) (VNumber 0) 5 in
  let s := State [c] [] [Banner.mk (VString "u") (VString "b") (VString "p")
                                   (VString "t") 6] in
  emissions_of (handle Connection s)
  = [Emit ThisSocket "coordinate-history" (Coordinates [c])]
  ∧ emissions_of (handle Connection initial) = [].
Proof.
  intros c s. split.
  - reflexivity.
  - by apply (connection_seed initial).
Defined.

(** The scenario of the specification: a client that connects after two
    coordinate posts and one image post is sent both snapshots, holding
    exactly those records. *)
Example connection_after_posts :
  let coords v := VObject [("coordinates", VArray v [])] in
  let rs := [PostCoordinates 10 (coords [VNumber 1; VNumber 2; VNumber 3]);
             PostCoordinates 11 (coords [VNumber 4; VNumber 5; VNumber 6; VNumber 1]);
             PostImage 12 (VObject [("imageUrl", VString "a.png")])] in
  emissions_of (handle Connection (run initial rs))
  = [Emit ThisSocket "coordinate-history"
       (Coordinates
          [Coordinate.mk (VNumber 1) (VNumber 2) (VNumber 3) (VNumber 0) 10;
           Coordinate.mk (VNumber 4) (VNumber 5) (VNumber 6) (VNumber 1) 11]);
     Emit ThisSocket "image-history"
       (Images [Image.mk (VString "a.png") (VObject []) 12])].
Proof. reflexivity. Qed.

(** ** Looking up a banner record *)

Lemma find_banner_first (u : string) (l1 l2 : list Banner.t) (b : Banner.t) :
  Forall (λ b', Banner.imageUrl b' ≠ VString u) l1 →
  Banner.imageUrl b = VString u →
  find_banner u (l1 ++ b :: l2) = Some b.
Proof.
  intros Hl1 Hb. unfold find_banner.
  induction l1 as [|a l1 IH]; simpl.
  - rewrite decide_True; [done|].
    apply Is_true_true, strict_equals_string, Hb.
  - inversion_clear Hl1 as [|?? Ha Hl1'].
    rewrite decide_False.
    + specialize (IH Hl1'). rewrite <- option_fmap_compose.
      destruct (list_find _ (l1 ++ b :: l2)) as [[i y]|]; simpl in *; done.
    + intros Heq%Is_true_true%strict_equals_string. done.
Qed.

Lemma find_banner_none (u : string) (l : list Banner.t) :
  Forall (λ b', Banner.imageUrl b' ≠ VString u) l →
  find_banner u l = None.
Proof.
  intros Hl. unfold find_banner.
  rewrite (proj2 (list_find_None _ l)); [done|].
  eapply Forall_impl; [exact Hl|]. simpl.
  intros b Hne Heq%Is_true_true%strict_equals_string. done.
Qed.

Lemma find_banner_split (u : string) (l : list Banner.t) :
  Forall (λ b', Banner.imageUrl b' ≠ VString u) l
  ∨ ∃ l1 b l2, l = l1 ++ b :: l2
      ∧ Forall (λ b', Banner.imageUrl b' ≠ VString u) l1
      ∧ Banner.imageUrl b = VString u.
Proof.
  induction l as [|a l IH].
  - left. constructor.
  - destruct (strict_equals (Banner.imageUrl a) (VString u)) eqn:E.
    + right. exists [], a, l. split_and!; [done|constructor|].
      by apply strict_equals_string.
    + assert (Banner.imageUrl a ≠ VString u) as Ha.
      { intros Heq%strict_equals_string. congruence. }
      destruct IH as [IH|(l1 & b & l2 & -> & Hl1 & Hb)].
      * left. by constructor.
      * right. exists (a :: l1), b, l2. split_and!; [done|by constructor|done].
Qed.

(** C5: [GET /api/banner_data/:imageUrl] answers 200 with the first record
    of the banner array whose [imageUrl] is the route parameter, when there
    is one, and 404 when the array holds no such record; one of the two
    always applies, and the state is kept. *)
Theorem get_banner_data_for_first (u : string) (s : state) :
  (∀ l1 b l2,
     bannerDataHistory s = l1 ++ b :: l2 →
     Forall (λ b', Banner.imageUrl b' ≠ VString u) l1 →
     Banner.imageUrl b = VString u →
     handle (GetBannerDataFor u) s = (s, Reply 200 (BannerBody b), []))
  ∧ (Forall (λ b', Banner.imageUrl b' ≠ VString u) (bannerDataHistory s) →
     handle (GetBannerDataFor u) s
     = (s, Reply 404 (ErrorBody "No banner data found for this image"), []))
  ∧ (Forall (λ b', Banner.imageUrl b' ≠ VString u) (bannerDataHistory s)
     ∨ ∃ l1 b l2, bannerDataHistory s = l1 ++ b :: l2
         ∧ Forall (λ b', Banner.imageUrl b' ≠ VString u) l1
         ∧ Banner.imageUrl b = VString u).
Proof.
  split_and!.
  - intros l1 b l2 Hs Hl1 Hb. simpl. unfold get_banner_data_for.
    by rewrite Hs, (find_banner_first u l1 l2 b Hl1 Hb).
  - intros Hl. simpl. unfold get_banner_data_for.
    by rewrite (find_banner_none u _ Hl).
  - apply find_banner_split.
Qed.

Lemma get_banner_data_for_first_witness :
  let b1 := Banner.mk (VString "v") (VString "x") (VString "top") (VString "ad") 1 in
  let b2 := Banner.mk (VString "u") (VString "y") (VString "top") (VString "ad") 2 in
  let b3 := Banner.mk (VString "u") (VString "z") (VString "low") (VString "ad") 3 in
  let s := State [] [] [b1; b2; b3] in
  handle (GetBannerDataFor "u") s = (s, Reply 200 (BannerBody b2), [])
  ∧ handle (GetBannerDataFor "w") s
    = (s, Reply 404 (ErrorBody "No banner data found for this image"), []).
Proof.
  intros b1 b2 b3 s. split.
  - apply (proj1 (get_banner_data_for_first "u" s) [b1] b2 [b3]).
    + reflexivity.
    + repeat constructor. discriminate.
    + reflexivity.
  - apply (proj1 (proj2 (get_banner_data_for_first "w" s))).
    repeat constructor; discriminate.
Defined.

(** ** Posting coordinates *)

Lemma post_coordinates_accepted (now : Z) (req_body : value) (c : Coordinate.t)
    (s : state) :
  accepted_coordinate now req_body = Some c →
  post_coordinates now req_body s
  = (State (push_bounded (coordinateHistory s) c)
           (imageHistory s) (bannerDataHistory s),
     Reply 200 (StatusBody "success" "Coordinates received"),
     [Emit AllClients "new-coordinate" (OneCoordinate c)]).
Proof.
  unfold accepted_coordinate, post_coordinates, emissions_of.
  destruct (get req_body "coordinates") as [cs|]; [|done].
  repeat (case_if; simpl; try done). by intros [= <-].
Qed.

Lemma post_coordinates_rejected (now : Z) (req_body : value) (s : state) :
  accepted_coordinate now req_body = None →
  state_of (post_coordinates now req_body s) = s
  ∧ ¬ status_is 200 (outcome_of (post_coordinates now req_body s)).
Proof.
  unfold accepted_coordinate, post_coordinates, emissions_of, state_of,
    outcome_of, status_is.
  destruct (get req_body "coordinates") as [cs|];
    [|by intros _; split; [|intros [? [=]]]].
  repeat (case_if; simpl; try done); intros _; (split; [done|]);
    intros [? [=]].
Qed.

Lemma length_push_bounded (h : list Coordinate.t) (c : Coordinate.t) :
  length h ≤ MAX_HISTORY_LENGTH →
  length (push_bounded h c) ≤ MAX_HISTORY_LENGTH.
Proof.
  unfold push_bounded, MAX_HISTORY_LENGTH. intros Hh.
  destruct (100 <? length (h ++ [c])) eqn:E.
  - rewrite length_drop, length_app. simpl. lia.
  - apply Nat.ltb_ge in E. done.
Qed.

Lemma push_bounded_drop (h : list Coordinate.t) (c : Coordinate.t) :
  length h ≤ MAX_HISTORY_LENGTH →
  push_bounded h c
  = drop (length (h ++ [c]) - MAX_HISTORY_LENGTH) (h ++ [c]).
Proof.
  unfold push_bounded, MAX_HISTORY_LENGTH. intros Hh.
  rewrite length_app. simpl.
  destruct (100 <? length h + 1) eqn:E.
  - apply Nat.ltb_lt in E. by replace (length h + 1 - 100) with 1 by lia.
  - apply Nat.ltb_ge in E. by replace (length h + 1 - 100) with 0 by lia.
Qed.

Lemma last_push_bounded (h : list Coordinate.t) (c : Coordinate.t) :
  last (push_bounded h c) = Some c.
Proof.
  unfold push_bounded, MAX_HISTORY_LENGTH.
  destruct (100 <? length (h ++ [c])) eqn:E; [|apply last_snoc].
  apply Nat.ltb_lt in E. rewrite length_app in E. simpl in E.
  destruct h as [|a h]; simpl in *; [lia|]. apply last_snoc.
Qed.

(** Every handler keeps the bound on the coordinate array. *)
Lemma handle_bounded (r : request) (s : state) :
  length (coordinateHistory s) ≤ MAX_HISTORY_LENGTH →
  length (coordinateHistory (state_of (handle r s))) ≤ MAX_HISTORY_LENGTH.
Proof.
  intros Hs. destruct r; simpl; try done.
  - destruct (accepted_coordinate now req_body) as [c|] eqn:E.
    + rewrite (post_coordinates_accepted _ _ _ _ E). simpl.
      by apply length_push_bounded.
    + by rewrite (proj1 (post_coordinates_rejected _ _ s E)).
  - unfold post_image. repeat (case_match; simpl; try done).
  - unfold post_banner_data, attach_banner, internal_error.
    repeat (case_match; simpl; try done).
  - unfold get_banner_data_for. by case_match.
  - unfold MAX_HISTORY_LENGTH. lia.
  - unfold MAX_HISTORY_LENGTH. lia.
Qed.

Lemma run_bounded (rs : list request) (s : state) :
  length (coordinateHistory s) ≤ MAX_HISTORY_LENGTH →
  length (coordinateHistory (run s rs)) ≤ MAX_HISTORY_LENGTH.
Proof.
  revert s. induction rs as [|r rs IH]; intros s Hs; [done|].
  apply IH. by apply handle_bounded.
Qed.

(** After any run of accepted coordinate posts the array holds the last
    [MAX_HISTORY_LENGTH] records of what was there followed by what was
    posted. *)
Lemma run_coordinate_posts (rs : list request) (cs : list Coordinate.t)
    (s : state) :
  length (coordinateHistory s) ≤ MAX_HISTORY_LENGTH →
  Forall2 posts_coordinate rs cs →
  coordinateHistory (run s rs)
  = drop (length (coordinateHistory s ++ cs) - MAX_HISTORY_LENGTH)
         (coordinateHistory s ++ cs).
Proof.
  intros Hs Hrs. revert s Hs.
  induction Hrs as [|r c rs cs (now & b & -> & Hc) _ IH]; intros s Hs.
  - simpl. rewrite app_nil_r.
    by replace (length (coordinateHistory s) - MAX_HISTORY_LENGTH) with 0 by lia.
  - change (run s (PostCoordinates now b :: rs))
      with (run (state_of (post_coordinates now b s)) rs).
    rewrite (post_coordinates_accepted _ _ _ _ Hc). unfold state_of. simpl.
    rewrite IH; simpl; [|by apply length_push_bounded].
    rewrite (push_bounded_drop _ _ Hs).
    set (h := coordinateHistory s) in *. unfold MAX_HISTORY_LENGTH in *.
    rewrite (cons_middle c h cs), (assoc_L (++) h [c] cs).
    set (l := h ++ [c]).
    assert (length l = length h + 1) as Hl by (unfold l; by rewrite length_app).
    rewrite !length_app, length_drop.
    rewrite <- (drop_app_le l cs (length l - 100)) by lia.
    rewrite drop_drop. f_equal. lia.
Qed.

Lemma accepted_coordinate_status (now : Z) (req_body : value) (s : state) :
  status_is 200 (outcome_of (post_coordinates now req_body s))
  ↔ is_Some (accepted_coordinate now req_body).
Proof.
  destruct (accepted_coordinate now req_body) as [c|] eqn:E.
  - rewrite (post_coordinates_accepted _ _ _ _ E). split; [by eexists|].
    intros _. by eexists.
  - split; [|by intros [? [=]]].
    intros H. by destruct (proj2 (post_coordinates_rejected _ _ s E)).
Qed.

(** C1: whatever requests the server has handled since it started, the
    coordinate array holds at most 100 records; and 101 accepted
    coordinate posts in a row leave it holding exactly the second to the
    101st of the posted records, in order: 100 records, the 101st last,
    and the first one gone (no record equal to it remains when the posted
    records are pairwise different). *)
Theorem coordinate_history_cap :
  (∀ rs, length (coordinateHistory (run initial rs)) ≤ 100)
  ∧ (∀ s rs cs,
       length (coordinateHistory s) ≤ 100 →
       Forall2 posts_coordinate rs cs →
       length cs = 101 →
       let h := coordinateHistory (run s rs) in
       h = drop 1 cs
       ∧ length h = 100
       ∧ last h = cs !! 100
       ∧ (∀ c, cs !! 100 = Some c → c ∈ h)
       ∧ (∀ c, NoDup cs → cs !! 0 = Some c → c ∉ h)).
Proof.
  split.
  - intros rs. apply run_bounded. unfold MAX_HISTORY_LENGTH. simpl. lia.
  - intros s rs cs Hs Hrs Hlen h.
    assert (h = drop 1 cs) as Hh.
    { unfold h. rewrite (run_coordinate_posts rs cs s Hs Hrs).
      unfold MAX_HISTORY_LENGTH in *. rewrite length_app, Hlen.
      replace (length (coordinateHistory s) + 101 - 100)
        with (length (coordinateHistory s) + 1) by lia.
      by rewrite drop_app_add. }
    assert (∀ c, cs !! 100 = Some c → h !! 99 = Some c) as Hlast.
    { intros c Hc. by rewrite Hh, lookup_drop. }
    assert (length h = 100) as Hlh.
    { rewrite Hh, length_drop. lia. }
    split_and!; [done|done| | |].
    + rewrite last_lookup, Hlh. simpl.
      destruct (lookup_lt_is_Some_2 cs 100) as [c Hc]; [lia|].
      by rewrite Hc, (Hlast c Hc).
    + intros c Hc. apply list_elem_of_lookup. exists 99. by apply Hlast.
    + intros c Hnd Hc. rewrite Hh.
      destruct cs as [|c0 cs']; simplify_eq/=.
      rewrite drop_0. by apply NoDup_cons_1_1.
Qed.

Lemma coordinate_history_cap_witness :
  let req_body :=
    VObject [("coordinates", VArray [VNumber 1; VNumber 2; VNumber 3] [])] in
  let rs := (λ n, PostCoordinates (Z.of_nat n) req_body) <$> seq 0 101 in
  let cs :=
    (λ n, Coordinate.mk (VNumber 1) (VNumber 2) (VNumber 3) (VNumber 0)
            (Z.of_nat n)) <$> seq 0 101 in
  coordinateHistory (run initial rs) = drop 1 cs.
Proof.
  intros req_body rs cs.
  apply (proj2 coordinate_history_cap initial rs cs).
  - simpl. lia.
  - apply Forall2_fmap, Forall_Forall2_diag, Forall_forall.
    intros n _. by exists (Z.of_nat n), req_body.
  - reflexivity.
Defined.

(** C4: with a [coordinates] array in the body, [POST /api/coordinates]
    answers 400 and changes nothing when the array has fewer than three
    elements or one of its first three elements is not a number; a body
    whose array is exactly three numbers is answered 200, and the record
    it appends has [photoCapture] 0. *)
Theorem post_coordinates_validation (now : Z) (req_body : value)
    (elems : list value) (own : list (string * value)) (s : state) :
  get req_body "coordinates" = Some (VArray elems own) →
  (length elems < 3 ∨ forallb is_number (take 3 elems) = false →
   ∃ msg, handle (PostCoordinates now req_body) s
          = (s, Reply 400 (ErrorBody msg), []))
  ∧ (∀ d x z,
       elems = [VNumber d; VNumber x; VNumber z] →
       let c := Coordinate.mk (VNumber d) (VNumber x) (VNumber z) (VNumber 0) now in
       handle (PostCoordinates now req_body) s
       = (State (push_bounded (coordinateHistory s) c)
                (imageHistory s) (bannerDataHistory s),
          Reply 200 (StatusBody "success" "Coordinates received"),
          [Emit AllClients "new-coordinate" (OneCoordinate c)])
       ∧ last (coordinateHistory (state_of (handle (PostCoordinates now req_body) s)))
         = Some c
       ∧ Coordinate.photoCapture c = VNumber 0).
Proof.
  intros Hget. simpl. unfold post_coordinates. rewrite Hget. split.
  - intros [Hlen|Hnum].
    + destruct elems as [|a [|b [|c rest]]]; simpl in *; try lia; by eexists.
    + destruct elems as [|a [|b [|c rest]]]; simpl in *; try by eexists.
      replace (negb (is_number a) || negb (is_number b) || negb (is_number c))
        with true; [by eexists|].
      destruct (is_number a), (is_number b), (is_number c); simpl in *; done.
  - intros d x z ->. simpl. split_and!; [done| |done].
    unfold state_of. simpl. apply last_push_bounded.
Qed.

Lemma post_coordinates_validation_witness :
  let short := VObject [("coordinates", VArray [VNumber 1; VNumber 2] [])] in
  let text :=
    VObject [("coordinates", VArray [VString "a"; VNumber 1; VNumber 2] [])] in
  let good :=
    VObject [("coordinates", VArray [VNumber 1; VNumber 2; VNumber 3] [])] in
  (∃ msg, handle (PostCoordinates 9 short) initial
          = (initial, Reply 400 (ErrorBody msg), []))
  ∧ (∃ msg, handle (PostCoordinates 9 text) initial
            = (initial, Reply 400 (ErrorBody msg), []))
  ∧ coordinateHistory (state_of (handle (PostCoordinates 9 good) initial))
    = [Coordinate.mk (VNumber 1) (VNumber 2) (VNumber 3) (VNumber 0) 9].
Proof.
  intros short text good. split_and!.
  - apply (proj1 (post_coordinates_validation 9 short
                    [VNumber 1; VNumber 2] [] initial eq_refl)).
    left. simpl. lia.
  - apply (proj1 (post_coordinates_validation 9 text
                    [VString "a"; VNumber 1; VNumber 2] [] initial eq_refl)).
    right. reflexivity.
  - destruct (proj2 (post_coordinates_validation 9 good
                       [VNumber 1; VNumber 2; VNumber 3] [] initial eq_refl)
                1%Z 2%Z 3%Z eq_refl) as [H _].
    by rewrite H.
Defined.

(** ** Posting images *)

Lemma post_image_accepted (now : Z) (req_body : value) (i : Image.t) (s : state) :
  accepted_image now req_body = Some i →
  post_image now req_body s
  = (State (coordinateHistory s) (i :: imageHistory s) (bannerDataHistory s),
     Reply 200 (StatusBody "success" "Image URL received"),
     [Emit AllClients "new-image" (OneImage i);
      Emit AllClients "image-history" (Images (i :: imageHistory s))]).
Proof.
  unfold accepted_image, post_image, emissions_of.
  destruct (get req_body "imageUrl"), (get req_body "metadata"); try done.
  case_if; simpl; [done|]. by intros [= <-].
Qed.

Lemma post_image_rejected (now : Z) (req_body : value) (s : state) :
  accepted_image now req_body = None →
  state_of (post_image now req_body s) = s
  ∧ ¬ status_is 200 (outcome_of (post_image now req_body s)).
Proof.
  unfold accepted_image, post_image, emissions_of, state_of, outcome_of,
    status_is.
  destruct (get req_body "imageUrl"), (get req_body "metadata");
    try (by intros _; split; [|intros [? [=]]]).
  case_if; simpl; [|done]. intros _. split; [done|]. intros [? [=]].
Qed.

Lemma accepted_image_status (now : Z) (req_body : value) (s : state) :
  status_is 200 (outcome_of (post_image now req_body s))
  ↔ is_Some (accepted_image now req_body).
Proof.
  destruct (accepted_image now req_body) as [i|] eqn:E.
  - rewrite (post_image_accepted _ _ _ _ E). split; [by eexists|].
    intros _. by eexists.
  - split; [|by intros [? [=]]].
    intros H. by destruct (proj2 (post_image_rejected _ _ s E)).
Qed.

(** What an accepted image post stores: the body's truthy [imageUrl], the
    body's [metadata] or a fresh empty object, and the clock reading. *)
Lemma accepted_image_fields (now : Z) (req_body : value) (i : Image.t) :
  accepted_image now req_body = Some i →
  get req_body "imageUrl" = Some (Image.url i)
  ∧ truthy (Image.url i) = true
  ∧ (∃ m, get req_body "metadata" = Some m
          ∧ Image.metadata i = js_or m (VObject []))
  ∧ Image.timestamp i = now.
Proof.
  unfold accepted_image, post_image, emissions_of.
  destruct (get req_body "imageUrl") as [u|], (get req_body "metadata") as [m|];
    try done.
  destruct (truthy u) eqn:E; simpl; [|done].
  intros [= <-]. simpl. split_and!; [done|done|by exists m|done].
Qed.

Lemma run_cons (s : state) (r : request) (rs : list request) :
  run s (r :: rs) = run (state_of (handle r s)) rs.
Proof. reflexivity. Qed.

Lemma run_image_posts (rs : list request) (imgs : list Image.t) (s : state) :
  Forall2 posts_image rs imgs →
  run s rs
  = State (coordinateHistory s) (reverse imgs ++ imageHistory s)
          (bannerDataHistory s).
Proof.
  intros Hrs. revert s.
  induction Hrs as [|r i rs imgs (now & b & -> & Hi) _ IH]; intros s.
  - by destruct s.
  - rewrite run_cons. simpl handle. rewrite (post_image_accepted _ _ _ _ Hi).
    unfold state_of. simpl. rewrite IH. simpl.
    by rewrite reverse_cons, <- (assoc_L (++)).
Qed.

(** C3: an accepted image post A followed by an accepted image post B
    puts B's record first and A's record second in front of what the
    array held, so from the empty array the result is [B, A]; no image
    post, accepted or not, takes a record out of the array; and any number
    of accepted image posts are all kept, newest first. *)
Theorem image_history_newest_first :
  (∀ s rA rB a b,
     posts_image rA a → posts_image rB b →
     imageHistory (run s [rA; rB]) = b :: a :: imageHistory s)
  ∧ (∀ rA rB a b,
       posts_image rA a → posts_image rB b →
       imageHistory (run initial [rA; rB]) = [b; a])
  ∧ (∀ now req_body s,
       imageHistory s
         `suffix_of` imageHistory (state_of (handle (PostImage now req_body) s)))
  ∧ (∀ s rs imgs,
       Forall2 posts_image rs imgs →
       imageHistory (run s rs) = reverse imgs ++ imageHistory s
       ∧ length (imageHistory (run s rs)) = length rs + length (imageHistory s)).
Proof.
  assert (∀ s rs imgs, Forall2 posts_image rs imgs →
            imageHistory (run s rs) = reverse imgs ++ imageHistory s) as Hrun.
  { intros s rs imgs Hrs. by rewrite (run_image_posts rs imgs s Hrs). }
  split_and!.
  - intros s rA rB a b Ha Hb.
    apply (Hrun s [rA; rB] [a; b]). by repeat constructor.
  - intros rA rB a b Ha Hb.
    apply (Hrun initial [rA; rB] [a; b]). by repeat constructor.
  - intros now b s. simpl.
    destruct (accepted_image now b) as [i|] eqn:E.
    + rewrite (post_image_accepted _ _ _ _ E). by exists [i].
    + by rewrite (proj1 (post_image_rejected _ _ s E)).
  - intros s rs imgs Hrs. split; [by apply Hrun|].
    rewrite (Hrun s rs imgs Hrs), length_app, length_reverse.
    by rewrite (Forall2_length _ _ _ Hrs).
Qed.

Lemma image_history_newest_first_witness :
  let rA := PostImage 1 (VObject [("imageUrl", VString "a.png")]) in
  let rB := PostImage 2 (VObject [("imageUrl", VString "b.png");
                                  ("metadata", VObject [("w", VNumber 640)])]) in
  imageHistory (run initial [rA; rB])
  = [Image.mk (VString "b.png") (VObject [("w", VNumber 640)]) 2;
     Image.mk (VString "a.png") (VObject []) 1].
Proof.
  intros rA rB.
  apply (proj1 (proj2 image_history_newest_first) rA rB).
  - by exists 1%Z, (VObject [("imageUrl", VString "a.png")]).
  - by exists 2%Z, (VObject [("imageUrl", VString "b.png");
                             ("metadata", VObject [("w", VNumber 640)])]).
Defined.

(** ** Posting banner data *)

Lemma put_object (m : value) (k : string) (v : value) :
  is_object m = true →
  ∃ m', put m k v = Some m' ∧ is_object m' = true ∧ get m' k = Some v.
Proof.
  destruct m; try done; intros _; eexists; (split_and!; [done|done|]);
    simpl; by rewrite lookup_store_prop.
Qed.

Lemma put_primitive (m : value) (k : string) (v : value) :
  truthy m = true → is_object m = false → put m k v = Some m.
Proof. by destruct m. Qed.

Lemma findIndex_url_first (u : value) (l1 l2 : list Image.t) (img : Image.t) :
  Forall (λ i, ¬ url_matches u i) l1 →
  url_matches u img →
  findIndex_url u (l1 ++ img :: l2) = Some (length l1, img).
Proof.
  intros Hl1 Hm. unfold findIndex_url. apply list_find_Some. split_and!.
  - by rewrite list_lookup_middle.
  - by apply Is_true_true.
  - intros j y Hj Hlt Hy%Is_true_true. rewrite lookup_app_l in Hj by done.
    by apply (Forall_lookup_1 _ _ _ _ Hl1 Hj).
Qed.

Lemma findIndex_url_none (u : value) (l : list Image.t) :
  Forall (λ i, ¬ url_matches u i) l → findIndex_url u l = None.
Proof.
  intros Hl. unfold findIndex_url. apply list_find_None.
  eapply Forall_impl; [exact Hl|]. intros i Hi Hx%Is_true_true. by apply Hi.
Qed.

Lemma findIndex_url_split (u : value) (l : list Image.t) :
  Forall (λ i, ¬ url_matches u i) l
  ∨ ∃ l1 img l2, l = l1 ++ img :: l2
      ∧ Forall (λ i, ¬ url_matches u i) l1 ∧ url_matches u img.
Proof.
  induction l as [|a l IH]; [left; constructor|].
  destruct (strict_equals (Image.url a) u) eqn:E.
  - right. by exists [], a, l.
  - assert (¬ url_matches u a) as Ha by (unfold url_matches; congruence).
    destruct IH as [IH|(l1 & img & l2 & -> & Hl1 & Hm)].
    + left. by constructor.
    + right. exists (a :: l1), img, l2. split_and!; [done|by constructor|done].
Qed.

(** A banner record whose [imageUrl] no image has: stored, and that is all. *)
Lemma attach_banner_no_match (bd : Banner.t) (s : state) :
  Forall (λ i, ¬ url_matches (Banner.imageUrl bd) i) (imageHistory s) →
  attach_banner bd s
  = (State (coordinateHistory s) (imageHistory s) (bannerDataHistory s ++ [bd]),
     Reply 201 (BannerReceived "Banner data received" bd), []).
Proof.
  intros Hl. unfold attach_banner. by rewrite (findIndex_url_none _ _ Hl).
Qed.

(** A banner record whose [imageUrl] is the [url] of some image, the first
    such image having an object (or array) as [metadata]: that image, and
    no other, is replaced by one whose [metadata.bannerData] is the
    record. *)
Lemma attach_banner_match (bd : Banner.t) (s : state) (l1 l2 : list Image.t)
    (img : Image.t) :
  imageHistory s = l1 ++ img :: l2 →
  Forall (λ i, ¬ url_matches (Banner.imageUrl bd) i) l1 →
  url_matches (Banner.imageUrl bd) img →
  is_object (Image.metadata img) = true →
  ∃ m, put (Image.metadata img) "bannerData" (Banner.to_value bd) = Some m
    ∧ is_object m = true
    ∧ bannerData_of (Image.with_metadata img m) = Some (Banner.to_value bd)
    ∧ attach_banner bd s
      = (State (coordinateHistory s) (l1 ++ Image.with_metadata img m :: l2)
               (bannerDataHistory s ++ [bd]),
         Reply 201 (BannerReceived "Banner data received" bd),
         [Emit AllClients "image-history"
            (Images (l1 ++ Image.with_metadata img m :: l2))]).
Proof.
  intros Hs Hl1 Hm Hobj.
  destruct (put_object _ "bannerData" (Banner.to_value bd) Hobj)
    as (m & Hput & Hm' & Hget).
  exists m. split_and!; [done|done|done|].
  unfold attach_banner.
  rewrite Hs, (findIndex_url_first _ _ _ _ Hl1 Hm), Hput.
  rewrite insert_app_r_alt by done. by rewrite Nat.sub_diag.
Qed.

(** The same match when the image's [metadata] is a boolean, a number or a
    string: the assignment is lost, the array is as before, and the
    unchanged snapshot is broadcast all the same. *)
Lemma attach_banner_primitive (bd : Banner.t) (s : state) (l1 l2 : list Image.t)
    (img : Image.t) :
  imageHistory s = l1 ++ img :: l2 →
  Forall (λ i, ¬ url_matches (Banner.imageUrl bd) i) l1 →
  url_matches (Banner.imageUrl bd) img →
  truthy (Image.metadata img) = true →
  is_object (Image.metadata img) = false →
  attach_banner bd s
  = (State (coordinateHistory s) (imageHistory s) (bannerDataHistory s ++ [bd]),
     Reply 201 (BannerReceived "Banner data received" bd),
     [Emit AllClients "image-history" (Images (imageHistory s))]).
Proof.
  intros Hs Hl1 Hm Ht Hobj. unfold attach_banner.
  rewrite Hs, (findIndex_url_first _ _ _ _ Hl1 Hm), (put_primitive _ _ _ Ht Hobj).
  rewrite insert_app_r_alt by done. rewrite Nat.sub_diag. by destruct img.
Qed.

Lemma post_banner_data_accepted (now : Z) (req_body : value) (bd : Banner.t)
    (s : state) :
  accepted_banner now req_body = Some bd →
  post_banner_data now req_body s = attach_banner bd s.
Proof.
  unfold accepted_banner, post_banner_data, outcome_of, internal_error.
  destruct (get req_body "imageUrl"), (get req_body "brand"),
    (get req_body "position"), (get req_body "type"); try done.
  case_if; simpl; [done|]. by intros [= <-].
Qed.

Lemma accepted_banner_fields (now : Z) (req_body : value) (bd : Banner.t) :
  accepted_banner now req_body = Some bd →
  get req_body "imageUrl" = Some (Banner.imageUrl bd)
  ∧ get req_body "brand" = Some (Banner.brand bd)
  ∧ get req_body "position" = Some (Banner.position bd)
  ∧ get req_body "type" = Some (Banner.type bd)
  ∧ truthy (Banner.imageUrl bd) = true
  ∧ Banner.timestamp bd = now.
Proof.
  unfold accepted_banner, post_banner_data, outcome_of, internal_error.
  destruct (get req_body "imageUrl") as [u|], (get req_body "brand"),
    (get req_body "position"), (get req_body "type"); try done.
  case_if; simpl; [done|]. intros [= <-]. simpl. split_and!; try done.
  by destruct (truthy u).
Qed.

Lemma to_value_inj (b1 b2 : Banner.t) :
  Banner.to_value b1 = Banner.to_value b2 → b1 = b2.
Proof. destruct b1, b2. unfold Banner.to_value. simpl. congruence. Qed.

(** Every handler keeps the [metadata] of each stored image truthy, so in
    a state the server can reach the assignment in [attach_banner] never
    throws: the first match carries an object, an array or a truthy
    primitive. *)
Lemma handle_metadata_truthy (r : request) (s : state) :
  Forall (λ i, truthy (Image.metadata i) = true) (imageHistory s) →
  Forall (λ i, truthy (Image.metadata i) = true)
         (imageHistory (state_of (handle r s))).
Proof.
  intros Hs. destruct r; simpl; try done.
  - destruct (accepted_coordinate now req_body) as [c|] eqn:E.
    + by rewrite (post_coordinates_accepted _ _ _ _ E).
    + by rewrite (proj1 (post_coordinates_rejected _ _ s E)).
  - destruct (accepted_image now req_body) as [i|] eqn:E.
    + rewrite (post_image_accepted _ _ _ _ E). simpl. constructor; [|done].
      destruct (accepted_image_fields _ _ _ E) as (_ & _ & (m & _ & ->) & _).
      unfold js_or. by destruct (truthy m) eqn:Em.
    + by rewrite (proj1 (post_image_rejected _ _ s E)).
  - unfold post_banner_data, attach_banner, internal_error.
    repeat (case_match; simpl; try done).
    apply Forall_insert; [done|]. simpl.
    match goal with
    | H : findIndex_url _ _ = Some (_, ?img) |- _ =>
        apply list_find_Some in H as (Hl & _ & _);
        apply (Forall_lookup_1 _ _ _ _ Hs) in Hl;
        destruct (Image.metadata img); simplify_eq/=; done
    end.
  - unfold get_banner_data_for. by case_match.
Qed.

Lemma run_metadata_truthy (rs : list request) :
  Forall (λ i, truthy (Image.metadata i) = true) (imageHistory (run initial rs)).
Proof.
  assert (∀ s, Forall (λ i, truthy (Image.metadata i) = true) (imageHistory s) →
            Forall (λ i, truthy (Image.metadata i) = true)
                   (imageHistory (run s rs))) as H.
  { induction rs as [|r rs IH]; intros s Hs; [done|].
    rewrite run_cons. by apply IH, handle_metadata_truthy. }
  apply H. constructor.
Qed.

(** C2, on the code: after [POST /api/image] with
    [{imageUrl: "u", metadata: "m"}], a [POST /api/banner_data] for ["u"]
    is answered 201, is appended to the banner array and triggers the
    [image-history] broadcast, but the matching image record is what it
    was: its [metadata] is still the string and [metadata.bannerData]
    reads [undefined]. *)
Theorem banner_on_text_metadata :
  let img := Image.mk (VString "u") (VString "m") 1 in
  let bd :=
    Banner.mk (VString "u") (VString "b") (VString "p") (VString "t") 2 in
  let s0 :=
    run initial
      [PostImage 1 (VObject [("imageUrl", VString "u");
                             ("metadata", VString "m")])] in
  let r :=
    PostBannerData 2
      (VObject [("imageUrl", VString "u"); ("brand", VString "b");
                ("position", VString "p"); ("type", VString "t")]) in
  s0 = State [] [img] []
  ∧ handle r s0
    = (State [] [img] [bd],
       Reply 201 (BannerReceived "Banner data received" bd),
       [Emit AllClients "image-history" (Images [img])])
  ∧ bannerData_of img = Some VUndefined.
Proof. by split_and!. Qed.

(** X18: the effect of an accepted banner post, by the three cases of the
    image array: no image with that [url]; a first match whose [metadata]
    is an object or array; a first match whose [metadata] is a truthy
    primitive. *)
Theorem post_banner_data_effect (now : Z) (req_body : value) (bd : Banner.t)
    (s : state) :
  accepted_banner now req_body = Some bd →
  (Forall (λ i, ¬ url_matches (Banner.imageUrl bd) i) (imageHistory s) →
   state_of (handle (PostBannerData now req_body) s)
   = State (coordinateHistory s) (imageHistory s) (bannerDataHistory s ++ [bd]))
  ∧ (∀ l1 img l2,
       imageHistory s = l1 ++ img :: l2 →
       Forall (λ i, ¬ url_matches (Banner.imageUrl bd) i) l1 →
       url_matches (Banner.imageUrl bd) img →
       (is_object (Image.metadata img) = true →
        ∃ img',
          state_of (handle (PostBannerData now req_body) s)
          = State (coordinateHistory s) (l1 ++ img' :: l2)
                  (bannerDataHistory s ++ [bd])
          ∧ Image.url img' = Image.url img
          ∧ Image.timestamp img' = Image.timestamp img
          ∧ bannerData_of img' = Some (Banner.to_value bd))
       ∧ (truthy (Image.metadata img) = true →
          is_object (Image.metadata img) = false →
          state_of (handle (PostBannerData now req_body) s)
          = State (coordinateHistory s) (imageHistory s)
                  (bannerDataHistory s ++ [bd]))).
Proof.
  intros Hbd. simpl. rewrite (post_banner_data_accepted _ _ _ s Hbd). split.
  - intros Hl. by rewrite (attach_banner_no_match _ _ Hl).
  - intros l1 img l2 Hs Hl1 Hm. split.
    + intros Hobj.
      destruct (attach_banner_match bd s l1 l2 img Hs Hl1 Hm Hobj)
        as (m & _ & _ & Hget & ->).
      by exists (Image.with_metadata img m).
    + intros Ht Hobj.
      by rewrite (attach_banner_primitive bd s l1 l2 img Hs Hl1 Hm Ht Hobj).
Qed.

(** C10, as the code has it: let [u] be a string that is the [imageUrl] of
    no stored banner record and the [url] of a stored image, the first
    such image having an object (or array) as [metadata].  After two
    accepted banner posts for [u], that image's [metadata.bannerData] is
    the second record while [GET /api/banner_data/u] answers with the
    first; unless the two records are equal, the image does not hold what
    the route returns. *)
Theorem banner_views_disagree (s : state) (now1 now2 : Z)
    (body1 body2 : value) (b1 b2 : Banner.t) (u : string)
    (l1 l2 : list Image.t) (img : Image.t) :
  accepted_banner now1 body1 = Some b1 →
  accepted_banner now2 body2 = Some b2 →
  Banner.imageUrl b1 = VString u →
  Banner.imageUrl b2 = VString u →
  Forall (λ b, Banner.imageUrl b ≠ VString u) (bannerDataHistory s) →
  imageHistory s = l1 ++ img :: l2 →
  Forall (λ i, ¬ url_matches (VString u) i) l1 →
  url_matches (VString u) img →
  is_object (Image.metadata img) = true →
  let s' := run s [PostBannerData now1 body1; PostBannerData now2 body2] in
  ∃ img',
    imageHistory s' = l1 ++ img' :: l2
    ∧ Image.url img' = Image.url img
    ∧ bannerData_of img' = Some (Banner.to_value b2)
    ∧ handle (GetBannerDataFor u) s' = (s', Reply 200 (BannerBody b1), [])
    ∧ (b1 ≠ b2 → bannerData_of img' ≠ Some (Banner.to_value b1)).
Proof.
  intros Hb1 Hb2 Hu1 Hu2 Hbs Hs Hl1 Hm Hobj s'.
  rewrite <- Hu1 in Hl1, Hm.
  destruct (attach_banner_match b1 s l1 l2 img Hs Hl1 Hm Hobj)
    as (m1 & _ & Hobj1 & _ & Hat1).
  set (s1 := State (coordinateHistory s) (l1 ++ Image.with_metadata img m1 :: l2)
                   (bannerDataHistory s ++ [b1])) in *.
  assert (state_of (handle (PostBannerData now1 body1) s) = s1) as E1.
  { simpl. by rewrite (post_banner_data_accepted _ _ _ s Hb1), Hat1. }
  rewrite Hu1, <- Hu2 in Hl1, Hm.
  destruct (attach_banner_match b2 s1 l1 l2 (Image.with_metadata img m1)
              eq_refl Hl1 Hm Hobj1) as (m2 & _ & _ & Hget & Hat2).
  set (img' := Image.with_metadata (Image.with_metadata img m1) m2) in *.
  set (s2 := State (coordinateHistory s) (l1 ++ img' :: l2)
                   ((bannerDataHistory s ++ [b1]) ++ [b2])) in *.
  assert (state_of (handle (PostBannerData now2 body2) s1) = s2) as E2.
  { simpl. by rewrite (post_banner_data_accepted _ _ _ s1 Hb2), Hat2. }
  assert (s' = s2) as ->.
  { unfold s'. rewrite !run_cons, E1, E2. done. }
  exists img'. split_and!; [done|done|done| |].
  - simpl. unfold get_banner_data_for. simpl.
    rewrite <- (assoc_L (++)). simpl.
    by rewrite (find_banner_first u _ [b2] b1 Hbs Hu1).
  - intros Hne. rewrite Hget. intros Heq. apply Hne, to_value_inj. congruence.
Qed.

Lemma banner_views_disagree_witness :
  let banner brand :=
    VObject [("imageUrl", VString "u"); ("brand", VString brand);
             ("position", VString "top"); ("type", VString "ad")] in
  let b1 :=
    Banner.mk (VString "u") (VString "first") (VString "top") (VString "ad") 2 in
  let b2 :=
    Banner.mk (VString "u") (VString "second") (VString "top") (VString "ad") 3 in
  let s := State [] [Image.mk (VString "u") (VObject []) 1] [] in
  let s' := run s [PostBannerData 2 (banner "first");
                   PostBannerData 3 (banner "second")] in
  ∃ img',
    imageHistory s' = [img']
    ∧ Image.url img' = VString "u"
    ∧ bannerData_of img' = Some (Banner.to_value b2)
    ∧ handle (GetBannerDataFor "u") s' = (s', Reply 200 (BannerBody b1), [])
    ∧ (b1 ≠ b2 → bannerData_of img' ≠ Some (Banner.to_value b1)).
Proof.
  intros banner b1 b2 s s'.
  apply (banner_views_disagree s 2 3 (banner "first") (banner "second")
           b1 b2 "u" [] [] (Image.mk (VString "u") (VObject []) 1));
    try reflexivity; constructor.
Defined.

(** C10 as stated fails when the shared [imageUrl] is not a string: with
    the number 5 as the image's [url] and as both banners' [imageUrl],
    the image holds the second record, and [GET /api/banner_data/5], whose
    parameter is the string ["5"], answers 404 instead of the first. *)
Lemma banner_views_number_url :
  let banner brand :=
    VObject [("imageUrl", VNumber 5); ("brand", VString brand);
             ("position", VString "top"); ("type", VString "ad")] in
  let b1 :=
    Banner.mk (VNumber 5) (VString "first") (VString "top") (VString "ad") 2 in
  let b2 :=
    Banner.mk (VNumber 5) (VString "second") (VString "top") (VString "ad") 3 in
  let s' := run initial [PostImage 1 (VObject [("imageUrl", VNumber 5)]);
                         PostBannerData 2 (banner "first");
                         PostBannerData 3 (banner "second")] in
  s' = State [] [Image.mk (VNumber 5)
                   (VObject [("bannerData", Banner.to_value b2)]) 1]
             [b1; b2]
  ∧ handle (GetBannerDataFor "5") s'
    = (s', Reply 404 (ErrorBody "No banner data found for this image"), []).
Proof. by split. Qed.

(** * Further properties of the handlers *)

(** ** Validation of coordinates *)

Lemma is_number_inv (v : value) : is_number v = true → ∃ n, v = VNumber n.
Proof. destruct v; try done. by eexists. Qed.

Lemma accepted_coordinate_inv (now : Z) (req_body : value) (c : Coordinate.t) :
  accepted_coordinate now req_body = Some c →
  ∃ elems own d x z p,
    get req_body "coordinates" = Some (VArray elems own)
    ∧ take 3 elems = [VNumber d; VNumber x; VNumber z]
    ∧ ((elems !! 3 = Some (VNumber p) ∧ (p = 0 ∨ p = 1)%Z)
       ∨ ((elems !! 3 = None ∨ elems !! 3 = Some VUndefined) ∧ p = 0%Z))
    ∧ c = Coordinate.mk (VNumber d) (VNumber x) (VNumber z) (VNumber p) now.
Proof.
  unfold accepted_coordinate, post_coordinates, emissions_of.
  destruct (get req_body "coordinates") as [cs|]; [|done].
  destruct cs as [| |?|?|?|elems own|?]; simpl; rewrite ?orb_true_r; try done.
  destruct elems as [|a [|b [|c' rest]]]; try done. simpl.
  destruct (is_number a) eqn:Ea; [|done].
  destruct (is_number b) eqn:Eb; [|done].
  destruct (is_number c') eqn:Ec; [|done]. simpl.
  apply is_number_inv in Ea as [d ->], Eb as [x ->], Ec as [z ->].
  destruct rest as [|p rest]; simpl.
  - intros [= <-]. exists [VNumber d; VNumber x; VNumber z], own, d, x, z, 0%Z.
    split_and!; [done|done| |done]. right. by split; [left|].
  - destruct p as [| | |n| | |]; try done; simpl.
    + intros [= <-].
      exists (VNumber d :: VNumber x :: VNumber z :: VUndefined :: rest),
        own, d, x, z, 0%Z.
      split_and!; [done|done| |done]. right. by split; [right|].
    + destruct (Z.eqb_spec n 0) as [->|Hn0]; simpl.
      * intros [= <-].
        exists (VNumber d :: VNumber x :: VNumber z :: VNumber 0 :: rest),
          own, d, x, z, 0%Z.
        split_and!; [done|done| |done]. left. by split; [|left].
      * destruct (Z.eqb_spec n 1) as [->|Hn1]; simpl; [|done].
        intros [= <-].
        exists (VNumber d :: VNumber x :: VNumber z :: VNumber 1 :: rest),
          own, d, x, z, 1%Z.
        split_and!; [done|done| |done]. left. by split; [|right].
Qed.

(** X1: a coordinate post is accepted exactly when [coordinates] is an
    array whose first three elements are numbers and whose fourth element
    is absent, 0 or 1; the record stored is made of those three numbers,
    the flag (0 when absent) and the clock reading. *)
Theorem coordinate_acceptance (now : Z) (req_body : value) (c : Coordinate.t) :
  accepted_coordinate now req_body = Some c ↔
  ∃ elems own d x z p,
    get req_body "coordinates" = Some (VArray elems own)
    ∧ take 3 elems = [VNumber d; VNumber x; VNumber z]
    ∧ ((elems !! 3 = Some (VNumber p) ∧ (p = 0 ∨ p = 1)%Z)
       ∨ ((elems !! 3 = None ∨ elems !! 3 = Some VUndefined) ∧ p = 0%Z))
    ∧ c = Coordinate.mk (VNumber d) (VNumber x) (VNumber z) (VNumber p) now.
Proof.
  split; [apply accepted_coordinate_inv|].
  intros (elems & own & d & x & z & p & Hget & Htake & Hp & ->).
  unfold accepted_coordinate, post_coordinates, emissions_of. rewrite Hget.
  destruct elems as [|a [|b [|c' rest]]]; simplify_eq/=.
  destruct Hp as [[Hp [-> | ->]]|[[Hp|Hp] ->]];
    destruct rest as [|q rest]; simplify_eq/=; done.
Qed.

Lemma coordinate_acceptance_witness :
  accepted_coordinate 8
    (VObject [("coordinates",
               VArray [VNumber 4; VNumber 5; VNumber 6; VNumber 1; VString "x"] [])])
  = Some (Coordinate.mk (VNumber 4) (VNumber 5) (VNumber 6) (VNumber 1) 8).
Proof.
  apply (proj2 (coordinate_acceptance _ _ _)).
  exists [VNumber 4; VNumber 5; VNumber 6; VNumber 1; VString "x"], [],
    4%Z, 5%Z, 6%Z, 1%Z.
  split_and!; [done|done| |done]. left. split; [done|by right].
Defined.

(** X2: the checks of the coordinate route run in a fixed order and the
    first that fails names the error: a value that is no array, or an array
    of fewer than three elements, is an invalid format even if it also
    holds non-numbers; then a non-number among the first three elements;
    then a fourth element other than 0 and 1.  Each rejection leaves the
    state alone and emits nothing. *)
Theorem coordinate_rejection_order (now : Z) (req_body v : value) (s : state) :
  get req_body "coordinates" = Some v →
  (isArray v = false ∨ array_length v < 3 →
   handle (PostCoordinates now req_body) s
   = (s, Reply 400 (ErrorBody invalid_format), []))
  ∧ (∀ elems own,
       v = VArray elems own → 3 ≤ length elems →
       forallb is_number (take 3 elems) = false →
       handle (PostCoordinates now req_body) s
       = (s, Reply 400 (ErrorBody not_numbers), []))
  ∧ (∀ elems own p,
       v = VArray elems own →
       forallb is_number (take 3 elems) = true →
       elems !! 3 = Some p →
       p ≠ VUndefined → p ≠ VNumber 0 → p ≠ VNumber 1 →
       handle (PostCoordinates now req_body) s
       = (s, Reply 400 (ErrorBody bad_photo_capture), [])).
Proof.
  intros Hget. simpl. unfold post_coordinates. rewrite Hget. split_and!.
  - intros [Harr|Hlen].
    + destruct v; simpl in *; rewrite ?orb_true_r; done.
    + destruct v as [| |?|?|?|elems own|?]; simpl in *; rewrite ?orb_true_r;
        try done.
      destruct elems as [|a [|b [|c' rest]]]; simpl in *; try done. lia.
  - intros elems own -> Hlen Hnum.
    destruct elems as [|a [|b [|c' rest]]]; simpl in *; try lia.
    by destruct (is_number a), (is_number b), (is_number c').
  - intros elems own p -> Hnum Hp Hu H0 H1.
    destruct elems as [|a [|b [|c' [|q rest]]]]; simplify_eq/=.
    destruct (is_number a), (is_number b), (is_number c'); try done. simpl.
    destruct p as [| | |n| | |]; try done. simpl.
    destruct (Z.eqb_spec n 0) as [->|?]; [done|].
    destruct (Z.eqb_spec n 1) as [->|?]; [done|]. done.
Qed.

Lemma coordinate_rejection_order_witness :
  let body v := VObject [("coordinates", v)] in
  handle (PostCoordinates 3 (body (VArray [VString "a"; VNull] []))) initial
  = (initial, Reply 400 (ErrorBody invalid_format), [])
  ∧ handle (PostCoordinates 3
              (body (VArray [VNumber 1; VNull; VNumber 2; VNumber 7] []))) initial
    = (initial, Reply 400 (ErrorBody not_numbers), [])
  ∧ handle (PostCoordinates 3
              (body (VArray [VNumber 1; VNumber 2; VNumber 3; VBool true] [])))
           initial
    = (initial, Reply 400 (ErrorBody bad_photo_capture), []).
Proof.
  intros body. split_and!.
  - apply (proj1 (coordinate_rejection_order 3 (body _) _ initial eq_refl)).
    right. simpl. lia.
  - apply (proj1 (proj2 (coordinate_rejection_order 3 (body _) _ initial eq_refl))
             [VNumber 1; VNull; VNumber 2; VNumber 7] []); [done|simpl; lia|done].
  - apply (proj2 (proj2 (coordinate_rejection_order 3 (body _) _ initial eq_refl))
             [VNumber 1; VNumber 2; VNumber 3; VBool true] [] (VBool true));
      done.
Defined.

(** X3: what follows the fourth element of [coordinates] plays no part:
    the request is handled as if the array stopped there. *)
Theorem coordinates_beyond_fourth_ignored (now : Z) (req_body req_body' : value)
    (a b c d : value) (rest : list value) (own own' : list (string * value))
    (s : state) :
  get req_body "coordinates" = Some (VArray (a :: b :: c :: d :: rest) own) →
  get req_body' "coordinates" = Some (VArray [a; b; c; d] own') →
  handle (PostCoordinates now req_body) s
  = handle (PostCoordinates now req_body') s.
Proof.
  intros H H'. simpl. unfold post_coordinates. by rewrite H, H'.
Qed.

Lemma coordinates_beyond_fourth_ignored_witness :
  let body v := VObject [("coordinates", VArray v [])] in
  handle (PostCoordinates 3
            (body [VNumber 1; VNumber 2; VNumber 3; VNumber 1; VNull; VString "z"]))
         initial
  = handle (PostCoordinates 3 (body [VNumber 1; VNumber 2; VNumber 3; VNumber 1]))
           initial.
Proof.
  intros body.
  by apply (coordinates_beyond_fourth_ignored 3 _ _ (VNumber 1) (VNumber 2)
              (VNumber 3) (VNumber 1) [VNull; VString "z"] [] [] initial).
Defined.

(** ** What the arrays hold *)

Lemma post_banner_data_rejected (now : Z) (req_body : value) (s : state) :
  accepted_banner now req_body = None →
  state_of (post_banner_data now req_body s) = s
  ∧ emissions_of (post_banner_data now req_body s) = [].
Proof.
  unfold accepted_banner, post_banner_data, outcome_of, state_of, emissions_of,
    internal_error.
  destruct (get req_body "imageUrl"), (get req_body "brand"),
    (get req_body "position"), (get req_body "type"); try done.
  by case_if.
Qed.

Lemma accepted_banner_inv (now : Z) (req_body : value) (bd : Banner.t) :
  accepted_banner now req_body = Some bd →
  well_formed_banner bd
  ∧ bd = Banner.mk (Banner.imageUrl bd) (Banner.brand bd) (Banner.position bd)
                   (Banner.type bd) now
  ∧ get req_body "imageUrl" = Some (Banner.imageUrl bd)
  ∧ get req_body "brand" = Some (Banner.brand bd)
  ∧ get req_body "position" = Some (Banner.position bd)
  ∧ get req_body "type" = Some (Banner.type bd).
Proof.
  unfold accepted_banner, post_banner_data, outcome_of, internal_error,
    well_formed_banner.
  destruct (get req_body "imageUrl") as [u|], (get req_body "brand") as [b|],
    (get req_body "position") as [p|], (get req_body "type") as [t|]; try done.
  destruct (truthy u) eqn:Eu, (truthy b) eqn:Eb, (truthy p) eqn:Ep,
    (truthy t) eqn:Et; simpl; try done.
  by intros [= <-].
Qed.

Lemma Forall_push_bounded (P : Coordinate.t → Prop) (h : list Coordinate.t)
    (c : Coordinate.t) :
  Forall P h → P c → Forall P (push_bounded h c).
Proof.
  intros Hh Hc. unfold push_bounded.
  assert (Forall P (h ++ [c])) as H
    by (apply Forall_app_2; [done|by apply Forall_singleton]).
  case_if; [by apply Forall_drop|done].
Qed.

Lemma attach_banner_well_formed (bd : Banner.t) (s : state) :
  well_formed_banner bd → well_formed s →
  well_formed (state_of (attach_banner bd s)).
Proof.
  intros Hbd (Hc & Hi & Hb).
  assert (Forall well_formed_banner (bannerDataHistory s ++ [bd])) as Hb'
    by (apply Forall_app_2; [done|by apply Forall_singleton]).
  unfold attach_banner, state_of, internal_error.
  destruct (findIndex_url _ _) as [[n img]|] eqn:Hfind; [|done].
  destruct (put _ _ _) as [m|] eqn:Hput; [|done].
  split_and!; [done| |done]. simpl. apply Forall_insert; [done|].
  apply list_find_Some in Hfind as (Hl & _ & _).
  destruct (Forall_lookup_1 _ _ _ _ Hi Hl) as [Hurl Hmeta].
  split; [done|]. simpl.
  destruct (Image.metadata img); simplify_eq/=; done.
Qed.

Lemma handle_well_formed (r : request) (s : state) :
  well_formed s → well_formed (state_of (handle r s)).
Proof.
  intros Hs. pose proof Hs as (Hc & Hi & Hb).
  destruct r; simpl; try done.
  - destruct (accepted_coordinate now req_body) as [c|] eqn:E.
    + rewrite (post_coordinates_accepted _ _ _ _ E).
      split_and!; [|done|done]. simpl. apply Forall_push_bounded; [done|].
      destruct (accepted_coordinate_inv _ _ _ E)
        as (? & ? & d & x & z & p & _ & _ & Hp & ->).
      split_and!; [done|done|done|]. simpl.
      destruct Hp as [[_ [-> | ->]]|[_ ->]]; auto.
    + by rewrite (proj1 (post_coordinates_rejected _ _ s E)).
  - destruct (accepted_image now req_body) as [i|] eqn:E.
    + rewrite (post_image_accepted _ _ _ _ E).
      split_and!; [done| |done]. simpl. constructor; [|done].
      destruct (accepted_image_fields _ _ _ E) as (_ & Hu & (m & _ & Hm) & _).
      split; [done|]. rewrite Hm. unfold js_or. by destruct (truthy m) eqn:Em.
    + by rewrite (proj1 (post_image_rejected _ _ s E)).
  - destruct (accepted_banner now req_body) as [bd|] eqn:E.
    + rewrite (post_banner_data_accepted _ _ _ s E).
      apply attach_banner_well_formed; [|done].
      apply (accepted_banner_inv _ _ _ E).
    + by rewrite (proj1 (post_banner_data_rejected _ _ s E)).
  - unfold get_banner_data_for. by case_match.
Qed.

Lemma reachable_well_formed (s : state) : reachable s → well_formed s.
Proof.
  intros [rs ->].
  assert (∀ s, well_formed s → well_formed (run s rs)) as H.
  { induction rs as [|r rs IH]; intros s Hs; [done|].
    rewrite run_cons. by apply IH, handle_well_formed. }
  apply H. split_and!; constructor.
Qed.

(** X4: in every state the server can reach, each coordinate record holds
    three numbers and a [photoCapture] of 0 or 1, each image record a truthy
    [url] and a truthy [metadata], and each banner record four truthy
    fields. *)
Theorem stored_records_well_formed (s : state) :
  reachable s →
  (∀ c, c ∈ coordinateHistory s →
     (∃ d x z, Coordinate.distance c = VNumber d ∧ Coordinate.x c = VNumber x
               ∧ Coordinate.z c = VNumber z)
     ∧ (Coordinate.photoCapture c = VNumber 0
        ∨ Coordinate.photoCapture c = VNumber 1))
  ∧ (∀ i, i ∈ imageHistory s →
       truthy (Image.url i) = true ∧ truthy (Image.metadata i) = true)
  ∧ (∀ b, b ∈ bannerDataHistory s →
       truthy (Banner.imageUrl b) = true ∧ truthy (Banner.brand b) = true
       ∧ truthy (Banner.position b) = true ∧ truthy (Banner.type b) = true).
Proof.
  intros (Hc & Hi & Hb)%reachable_well_formed.
  rewrite Forall_forall in Hc. rewrite Forall_forall in Hi.
  rewrite Forall_forall in Hb. split_and!.
  - intros c (Hd & Hx & Hz & Hp)%Hc. split; [|done].
    apply is_number_inv in Hd as [d ?], Hx as [x ?], Hz as [z ?]. by exists d, x, z.
  - intros i Hin. by apply Hi.
  - intros b Hin. by apply Hb.
Qed.

Lemma stored_records_well_formed_witness :
  let s := run initial
             [PostCoordinates 1
                (VObject [("coordinates",
                           VArray [VNumber 1; VNumber 2; VNumber 3] [])]);
              PostImage 2 (VObject [("imageUrl", VString "u");
                                    ("metadata", VNumber 0)])] in
  let i := Image.mk (VString "u") (VObject []) 2 in
  i ∈ imageHistory s
  ∧ truthy (Image.url i) = true ∧ truthy (Image.metadata i) = true.
Proof.
  intros s i.
  assert (i ∈ imageHistory s) as Hi by apply list_elem_of_here.
  split; [done|].
  apply (proj1 (proj2 (stored_records_well_formed s
                         (ex_intro _ _ eq_refl))) i Hi).
Defined.

(** X5: accepted coordinate posts slide a window: from a state within the
    bound, after any number of them the array is the last 100 records of
    what it held followed by what was posted, its length is the smaller of
    100 and that total, and the other two arrays are as before. *)
Theorem coordinate_window (s : state) (rs : list request)
    (cs : list Coordinate.t) :
  length (coordinateHistory s) ≤ 100 →
  Forall2 posts_coordinate rs cs →
  let all := coordinateHistory s ++ cs in
  coordinateHistory (run s rs) = drop (length all - 100) all
  ∧ length (coordinateHistory (run s rs)) = length all `min` 100
  ∧ imageHistory (run s rs) = imageHistory s
  ∧ bannerDataHistory (run s rs) = bannerDataHistory s.
Proof.
  intros Hs Hrs all.
  pose proof (run_coordinate_posts rs cs s Hs Hrs) as Hrun.
  unfold MAX_HISTORY_LENGTH in Hrun. fold all in Hrun.
  split_and!; [done| | |].
  - rewrite Hrun, length_drop. lia.
  - clear Hrun Hs all. revert s.
    induction Hrs as [|r c rs cs (now & b & -> & Hc) _ IH]; intros s; [done|].
    rewrite run_cons, IH. simpl. by rewrite (post_coordinates_accepted _ _ _ _ Hc).
  - clear Hrun Hs all. revert s.
    induction Hrs as [|r c rs cs (now & b & -> & Hc) _ IH]; intros s; [done|].
    rewrite run_cons, IH. simpl. by rewrite (post_coordinates_accepted _ _ _ _ Hc).
Qed.

Lemma coordinate_window_witness :
  let req_body n :=
    VObject [("coordinates",
              VArray [VNumber (Z.of_nat n); VNumber 2; VNumber 3] [])] in
  let rs := (λ n, PostCoordinates 0 (req_body n)) <$> seq 0 250 in
  let cs :=
    (λ n, Coordinate.mk (VNumber (Z.of_nat n)) (VNumber 2) (VNumber 3)
            (VNumber 0) 0) <$> seq 0 250 in
  coordinateHistory (run initial rs) = drop 150 cs.
Proof.
  intros req_body rs cs.
  apply (coordinate_window initial rs cs).
  - simpl. lia.
  - apply Forall2_fmap, Forall_Forall2_diag, Forall_forall.
    intros n _. by exists 0%Z, (req_body n).
Defined.

(** ** What a post leaves alone *)

Lemma attach_banner_frame (bd : Banner.t) (s : state) :
  let s' := state_of (attach_banner bd s) in
  coordinateHistory s' = coordinateHistory s
  ∧ Image.url <$> imageHistory s' = Image.url <$> imageHistory s
  ∧ Image.timestamp <$> imageHistory s' = Image.timestamp <$> imageHistory s
  ∧ bannerDataHistory s' = bannerDataHistory s ++ [bd].
Proof.
  unfold attach_banner, state_of, internal_error.
  destruct (findIndex_url _ _) as [[n img]|] eqn:Hfind; [|done].
  destruct (put _ _ _) as [m|] eqn:Hput; [|done]. simpl.
  apply list_find_Some in Hfind as (Hl & _ & _).
  split_and!; [done| | |done]; rewrite list_fmap_insert; simpl;
    apply list_insert_id; by rewrite list_lookup_fmap, Hl.
Qed.

Lemma posts_frame_coordinates (now : Z) (req_body : value) (s : state) :
  (imageHistory (state_of (post_coordinates now req_body s)) = imageHistory s
   ∧ bannerDataHistory (state_of (post_coordinates now req_body s))
     = bannerDataHistory s)
  ∧ (coordinateHistory (state_of (post_image now req_body s)) = coordinateHistory s
     ∧ bannerDataHistory (state_of (post_image now req_body s))
       = bannerDataHistory s)
  ∧ bannerDataHistory s
      `prefix_of` bannerDataHistory (state_of (post_banner_data now req_body s)).
Proof.
  split_and!.
  - destruct (accepted_coordinate now req_body) as [c|] eqn:E.
    + by rewrite (post_coordinates_accepted _ _ _ _ E).
    + by rewrite (proj1 (post_coordinates_rejected _ _ s E)).
  - destruct (accepted_coordinate now req_body) as [c|] eqn:E.
    + by rewrite (post_coordinates_accepted _ _ _ _ E).
    + by rewrite (proj1 (post_coordinates_rejected _ _ s E)).
  - destruct (accepted_image now req_body) as [i|] eqn:E.
    + by rewrite (post_image_accepted _ _ _ _ E).
    + by rewrite (proj1 (post_image_rejected _ _ s E)).
  - destruct (accepted_image now req_body) as [i|] eqn:E.
    + by rewrite (post_image_accepted _ _ _ _ E).
    + by rewrite (proj1 (post_image_rejected _ _ s E)).
  - destruct (accepted_banner now req_body) as [bd|] eqn:E.
    + rewrite (post_banner_data_accepted _ _ _ s E).
      destruct (attach_banner_frame bd s) as (_ & _ & _ & ->). by eexists.
    + by rewrite (proj1 (post_banner_data_rejected _ _ s E)).
Qed.

(** X6: a coordinate post leaves the image and banner arrays as they are
    and an image post the coordinate and banner arrays; a banner post
    leaves the coordinate array as it is, keeps the banner records already
    stored in front, and keeps the number, order, [url] and [timestamp] of
    the image records. *)
Theorem posts_framed (now : Z) (req_body : value) (s : state) :
  (let s' := state_of (handle (PostCoordinates now req_body) s) in
   imageHistory s' = imageHistory s
   ∧ bannerDataHistory s' = bannerDataHistory s)
  ∧ (let s' := state_of (handle (PostImage now req_body) s) in
     coordinateHistory s' = coordinateHistory s
     ∧ bannerDataHistory s' = bannerDataHistory s)
  ∧ (let s' := state_of (handle (PostBannerData now req_body) s) in
     coordinateHistory s' = coordinateHistory s
     ∧ bannerDataHistory s `prefix_of` bannerDataHistory s'
     ∧ Image.url <$> imageHistory s' = Image.url <$> imageHistory s
     ∧ Image.timestamp <$> imageHistory s' = Image.timestamp <$> imageHistory s).
Proof.
  destruct (posts_frame_coordinates now req_body s) as (Hc & Hi & Hb).
  simpl. split_and!; try done; try apply Hc; try apply Hi.
  - destruct (accepted_banner now req_body) as [bd|] eqn:E.
    + rewrite (post_banner_data_accepted _ _ _ s E). apply attach_banner_frame.
    + by rewrite (proj1 (post_banner_data_rejected _ _ s E)).
  - destruct (accepted_banner now req_body) as [bd|] eqn:E.
    + rewrite (post_banner_data_accepted _ _ _ s E). apply attach_banner_frame.
    + by rewrite (proj1 (post_banner_data_rejected _ _ s E)).
  - destruct (accepted_banner now req_body) as [bd|] eqn:E.
    + rewrite (post_banner_data_accepted _ _ _ s E). apply attach_banner_frame.
    + by rewrite (proj1 (post_banner_data_rejected _ _ s E)).
Qed.

(** ** Validation of images and banners *)



Lemma attach_banner_outcome (bd : Banner.t) (s : state) :
  well_formed s →
  outcome_of (attach_banner bd s)
  = Reply 201 (BannerReceived "Banner data received" bd).
Proof.
  intros (_ & Hi & _). unfold attach_banner, outcome_of.
  destruct (findIndex_url _ _) as [[n img]|] eqn:Hfind; [|done].
  apply list_find_Some in Hfind as (Hl & _ & _).
  destruct (Forall_lookup_1 _ _ _ _ Hi Hl) as [_ Hmeta].
  by destruct (Image.metadata img).
Qed.

(** X8: in a state the server can reach, a banner post whose body has the
    four fields is answered 400, with nothing changed, when one of them is
    falsy, and otherwise 201 with the record made of the four values and
    the clock reading, which becomes the last banner record. *)
Theorem banner_post_outcome (now : Z) (req_body u b p t : value) (s : state) :
  reachable s →
  get req_body "imageUrl" = Some u →
  get req_body "brand" = Some b →
  get req_body "position" = Some p →
  get req_body "type" = Some t →
  (truthy u && truthy b && truthy p && truthy t = false →
   handle (PostBannerData now req_body) s
   = (s, Reply 400 (ErrorBody "Missing required fields"), []))
  ∧ (truthy u && truthy b && truthy p && truthy t = true →
     let bd := Banner.mk u b p t now in
     outcome_of (handle (PostBannerData now req_body) s)
     = Reply 201 (BannerReceived "Banner data received" bd)
     ∧ bannerDataHistory (state_of (handle (PostBannerData now req_body) s))
       = bannerDataHistory s ++ [bd]).
Proof.
  intros Hs%reachable_well_formed Hu Hb Hp Ht. simpl. unfold post_banner_data.
  rewrite Hu, Hb, Hp, Ht. split.
  - intros H. by destruct (truthy u), (truthy b), (truthy p), (truthy t).
  - intros H.
    destruct (truthy u), (truthy b), (truthy p), (truthy t); try done. simpl.
    split; [by apply attach_banner_outcome|].
    by destruct (attach_banner_frame (Banner.mk u b p t now) s) as (_ & _ & _ & ->).
Qed.

Lemma banner_post_outcome_witness :
  let s := run initial [PostImage 1 (VObject [("imageUrl", VString "u")])] in
  let req_body :=
    VObject [("imageUrl", VString "u"); ("brand", VString "b");
             ("position", VNumber 0); ("type", VString "t")] in
  handle (PostBannerData 2 req_body) s
  = (s, Reply 400 (ErrorBody "Missing required fields"), []).
Proof.
  intros s req_body.
  apply (proj1 (banner_post_outcome 2 req_body (VString "u") (VString "b")
                  (VNumber 0) (VString "t") s
                  (ex_intro _ [PostImage 1 (VObject [("imageUrl", VString "u")])]
                            eq_refl)
                  eq_refl eq_refl eq_refl eq_refl)).
  reflexivity.
Defined.

(** ** Exceptions *)




(** ** The banner array over time *)

Lemma handle_banner_prefix (r : request) (s : state) :
  r ≠ DeleteAll →
  bannerDataHistory s `prefix_of` bannerDataHistory (state_of (handle r s)).
Proof.
  intros Hr. destruct r; simpl; try done.
  - by rewrite (proj2 (proj1 (posts_frame_coordinates now req_body s))).
  - by rewrite (proj2 (proj1 (proj2 (posts_frame_coordinates now req_body s)))).
  - apply (proj2 (proj2 (posts_frame_coordinates now req_body s))).
  - unfold get_banner_data_for. by case_match.
Qed.

Lemma run_banner_prefix (rs : list request) (s : state) :
  DeleteAll ∉ rs →
  bannerDataHistory s `prefix_of` bannerDataHistory (run s rs).
Proof.
  revert s. induction rs as [|r rs IH]; intros s Hrs; [done|].
  apply not_elem_of_cons in Hrs as [Hr Hrs]. rewrite run_cons.
  etrans; [|by apply IH]. by apply handle_banner_prefix.
Qed.

Lemma find_banner_app (u : string) (l k : list Banner.t) (b : Banner.t) :
  find_banner u l = Some b → find_banner u (l ++ k) = Some b.
Proof.
  unfold find_banner. intros H.
  destruct (list_find _ l) as [[i y]|] eqn:E; simplify_eq/=.
  by rewrite (list_find_app_l _ _ _ _ _ E).
Qed.

(** X10: banner records are never evicted, reordered or rewritten: as
    long as [DELETE /api/all] is not among the requests handled, the
    banner array after them starts with the banner array before them.
    In particular clearing the images or the coordinates keeps every
    banner record. *)
Theorem banner_history_append_only (rs : list request) (s : state) :
  DeleteAll ∉ rs →
  bannerDataHistory s `prefix_of` bannerDataHistory (run s rs).
Proof. apply run_banner_prefix. Qed.

Lemma banner_history_append_only_witness :
  let b := Banner.mk (VString "u") (VString "b") (VString "p") (VString "t") 1 in
  let s := State [] [Image.mk (VString "u") (VObject []) 0] [b] in
  [b] `prefix_of` bannerDataHistory
        (run s [DeleteImages; DeleteCoordinates;
                PostBannerData 2
                  (VObject [("imageUrl", VString "v"); ("brand", VString "b");
                            ("position", VString "p"); ("type", VString "t")])]).
Proof.
  intros b s. apply (banner_history_append_only _ s).
  rewrite !not_elem_of_cons. split_and!; try done. apply not_elem_of_nil.
Defined.

(** X11: the answer of [GET /api/banner_data/:imageUrl] is stable: once
    it is a record, the same request keeps being answered with that very
    record after any requests that do not include [DELETE /api/all], later
    banner posts for the same [imageUrl] included. *)
Theorem banner_lookup_stable (u : string) (b : Banner.t) (rs : list request)
    (s : state) :
  outcome_of (handle (GetBannerDataFor u) s) = Reply 200 (BannerBody b) →
  DeleteAll ∉ rs →
  outcome_of (handle (GetBannerDataFor u) (run s rs)) = Reply 200 (BannerBody b).
Proof.
  simpl. unfold get_banner_data_for, outcome_of. intros Hb Hrs.
  destruct (find_banner u (bannerDataHistory s)) as [b'|] eqn:E; simplify_eq/=.
  destruct (run_banner_prefix rs s Hrs) as [k ->].
  by rewrite (find_banner_app u _ k b E).
Qed.

Lemma banner_lookup_stable_witness :
  let banner brand :=
    VObject [("imageUrl", VString "u"); ("brand", VString brand);
             ("position", VString "p"); ("type", VString "t")] in
  let b := Banner.mk (VString "u") (VString "one") (VString "p") (VString "t") 1 in
  let s := run initial [PostBannerData 1 (banner "one")] in
  outcome_of (handle (GetBannerDataFor "u")
                (run s [PostBannerData 2 (banner "two"); DeleteImages]))
  = Reply 200 (BannerBody b).
Proof.
  intros banner b s. apply (banner_lookup_stable "u" b _ s); [done|].
  rewrite !not_elem_of_cons. split_and!; try done. apply not_elem_of_nil.
Defined.

(** X12: posting and looking up.  After an accepted banner post whose
    [imageUrl] is the string [u], with no record for [u] stored before,
    [GET /api/banner_data/u] answers with the record just stored.  After
    an accepted banner post whose [imageUrl] is not a string, every lookup
    by url is answered as before the post: the record is stored but no
    route parameter finds it. *)
Theorem banner_post_then_lookup (now : Z) (req_body : value) (bd : Banner.t)
    (s : state) :
  accepted_banner now req_body = Some bd →
  let s' := state_of (handle (PostBannerData now req_body) s) in
  (∀ u, Banner.imageUrl bd = VString u →
        status_is 404 (outcome_of (handle (GetBannerDataFor u) s)) →
        outcome_of (handle (GetBannerDataFor u) s') = Reply 200 (BannerBody bd))
  ∧ ((∀ u, Banner.imageUrl bd ≠ VString u) →
     ∀ u, outcome_of (handle (GetBannerDataFor u) s')
          = outcome_of (handle (GetBannerDataFor u) s)).
Proof.
  intros Hbd s'.
  assert (bannerDataHistory s' = bannerDataHistory s ++ [bd]) as Hs'.
  { unfold s'. simpl. rewrite (post_banner_data_accepted _ _ _ s Hbd).
    apply attach_banner_frame. }
  simpl. unfold get_banner_data_for, outcome_of. rewrite Hs'. split.
  - intros u Hu [body H404].
    destruct (find_banner u (bannerDataHistory s)) as [b'|] eqn:E;
      simplify_eq/=.
    rewrite (find_banner_first u (bannerDataHistory s) [] bd); [done| |done].
    unfold find_banner in E. apply fmap_None, list_find_None in E.
    eapply Forall_impl; [exact E|]. simpl. intros b Hb Heq. apply Hb.
    by apply Is_true_true, strict_equals_string.
  - intros Hns u.
    destruct (find_banner u (bannerDataHistory s)) as [b'|] eqn:E.
    + by rewrite (find_banner_app u _ [bd] b' E).
    + unfold find_banner in *. apply fmap_None in E.
      rewrite (list_find_app_r _ _ _ E). simpl.
      rewrite decide_False; [done|].
      intros Heq%Is_true_true%strict_equals_string. by apply (Hns u).
Qed.

Lemma banner_post_then_lookup_witness :
  let req_body :=
    VObject [("imageUrl", VString "u"); ("brand", VString "b");
             ("position", VString "p"); ("type", VString "t")] in
  let bd := Banner.mk (VString "u") (VString "b") (VString "p") (VString "t") 4 in
  outcome_of (handle (GetBannerDataFor "u")
                (state_of (handle (PostBannerData 4 req_body) initial)))
  = Reply 200 (BannerBody bd).
Proof.
  intros req_body bd.
  apply (proj1 (banner_post_then_lookup 4 req_body bd initial eq_refl) "u");
    [done|by eexists].
Defined.

(** ** What is broadcast *)

Lemma post_coordinates_rejected_silent (now : Z) (req_body : value) (s : state) :
  accepted_coordinate now req_body = None →
  emissions_of (post_coordinates now req_body s) = [].
Proof.
  unfold accepted_coordinate, post_coordinates, emissions_of.
  destruct (get req_body "coordinates") as [cs|]; [|done].
  repeat (case_if; simpl; try done).
Qed.

Lemma post_image_rejected_silent (now : Z) (req_body : value) (s : state) :
  accepted_image now req_body = None →
  emissions_of (post_image now req_body s) = [].
Proof.
  unfold accepted_image, post_image, emissions_of.
  destruct (get req_body "imageUrl"), (get req_body "metadata"); try done.
  by case_if.
Qed.

Lemma attach_banner_emissions (bd : Banner.t) (s : state) :
  emissions_of (attach_banner bd s) = []
  ∨ emissions_of (attach_banner bd s)
    = [Emit AllClients "image-history"
         (Images (imageHistory (state_of (attach_banner bd s))))].
Proof.
  unfold attach_banner, emissions_of, state_of.
  destruct (findIndex_url _ _) as [[n img]|]; [|by left].
  destruct (put _ _ _); [by right|by left].
Qed.

(** X13: what is sent is current.  Whatever the request, an
    [image-history] event carries the image array as the handler leaves
    it, a [coordinate-history] event the coordinate array, a [new-image]
    event the record that is now first in the image array, and a
    [new-coordinate] event the record that is now last in the coordinate
    array. *)
Theorem broadcasts_current (r : request) (s : state) (e : emission) :
  e ∈ emissions_of (handle r s) →
  let s' := state_of (handle r s) in
  (event e = "image-history" → data e = Images (imageHistory s'))
  ∧ (event e = "coordinate-history" →
     data e = Coordinates (coordinateHistory s'))
  ∧ (event e = "new-image" →
     ∃ i, data e = OneImage i ∧ head (imageHistory s') = Some i)
  ∧ (event e = "new-coordinate" →
     ∃ c, data e = OneCoordinate c ∧ last (coordinateHistory s') = Some c).
Proof.
  destruct r; simpl.
  - destruct (accepted_coordinate now req_body) as [c|] eqn:E.
    + rewrite (post_coordinates_accepted _ _ _ _ E). unfold emissions_of. simpl.
      intros ->%list_elem_of_singleton. simpl. split_and!; try done.
      intros _. exists c. split; [done|]. apply last_push_bounded.
    + rewrite (post_coordinates_rejected_silent _ _ s E).
      by intros ?%elem_of_nil.
  - destruct (accepted_image now req_body) as [i|] eqn:E.
    + rewrite (post_image_accepted _ _ _ _ E). unfold emissions_of. simpl.
      rewrite !elem_of_cons, elem_of_nil. intros [-> | [-> | []]]; simpl;
        split_and!; try done. intros _. by exists i.
    + rewrite (post_image_rejected_silent _ _ s E). by intros ?%elem_of_nil.
  - destruct (accepted_banner now req_body) as [bd|] eqn:E.
    + rewrite (post_banner_data_accepted _ _ _ s E).
      destruct (attach_banner_emissions bd s) as [-> | ->].
      * by intros ?%elem_of_nil.
      * intros ->%list_elem_of_singleton. simpl. by split_and!.
    + rewrite (proj2 (post_banner_data_rejected _ _ s E)).
      by intros ?%elem_of_nil.
  - by intros ?%elem_of_nil.
  - by intros ?%elem_of_nil.
  - by intros ?%elem_of_nil.
  - unfold get_banner_data_for. case_match; by intros ?%elem_of_nil.
  - intros ->%list_elem_of_singleton. simpl. by split_and!.
  - intros ->%list_elem_of_singleton. simpl. by split_and!.
  - rewrite !elem_of_cons, elem_of_nil. intros [-> | [-> | []]]; simpl;
      by split_and!.
  - unfold on_connection, emissions_of, state_of. simpl.
    destruct (coordinateHistory s), (imageHistory s); simpl;
      rewrite ?elem_of_cons, ?elem_of_nil; intros H;
      repeat (destruct H as [-> | H]; [by split_and!|]); done.
Qed.

Lemma broadcasts_current_witness :
  let img := Image.mk (VString "u") (VObject []) 1 in
  let s := State [] [img] [] in
  let r := PostBannerData 2
             (VObject [("imageUrl", VString "u"); ("brand", VString "b");
                       ("position", VString "p"); ("type", VString "t")]) in
  let e := Emit AllClients "image-history"
             (Images (imageHistory (state_of (handle r s)))) in
  e ∈ emissions_of (handle r s)
  ∧ (event e = "image-history" →
     data e = Images (imageHistory (state_of (handle r s)))).
Proof.
  intros img s r e.
  assert (e ∈ emissions_of (handle r s)) as He by apply list_elem_of_here.
  split; [done|]. by apply (broadcasts_current r s e He).
Defined.

(** X14: in a state the server can reach, an accepted banner post
    broadcasts nothing and keeps the image array when no stored image has
    its [imageUrl] as [url], and otherwise broadcasts exactly one
    [image-history] event, carrying the image array as it is after the
    post. *)
Theorem banner_broadcast_on_match (now : Z) (req_body : value) (bd : Banner.t)
    (s : state) :
  reachable s →
  accepted_banner now req_body = Some bd →
  let r := PostBannerData now req_body in
  (Forall (λ i, ¬ url_matches (Banner.imageUrl bd) i) (imageHistory s) →
   emissions_of (handle r s) = []
   ∧ imageHistory (state_of (handle r s)) = imageHistory s)
  ∧ (Exists (url_matches (Banner.imageUrl bd)) (imageHistory s) →
     emissions_of (handle r s)
     = [Emit AllClients "image-history"
          (Images (imageHistory (state_of (handle r s))))]).
Proof.
  intros (_ & Hi & _)%reachable_well_formed Hbd r. unfold r. simpl.
  rewrite (post_banner_data_accepted _ _ _ s Hbd). split.
  - intros Hno. by rewrite (attach_banner_no_match _ _ Hno).
  - intros Hex.
    destruct (findIndex_url_split (Banner.imageUrl bd) (imageHistory s))
      as [Hno|(l1 & img & l2 & Hs & Hl1 & Hm)].
    { apply Exists_exists in Hex as (i & Hin & Hmi).
      rewrite Forall_forall in Hno. by destruct (Hno i Hin). }
    assert (truthy (Image.metadata img) = true) as Ht.
    { rewrite Forall_forall in Hi. apply Hi. rewrite Hs.
      apply elem_of_app. right. apply list_elem_of_here. }
    destruct (is_object (Image.metadata img)) eqn:Hobj.
    + by destruct (attach_banner_match bd s l1 l2 img Hs Hl1 Hm Hobj)
        as (m & _ & _ & _ & ->).
    + by rewrite (attach_banner_primitive bd s l1 l2 img Hs Hl1 Hm Ht Hobj).
Qed.

Lemma banner_broadcast_on_match_witness :
  let s := run initial [PostImage 1 (VObject [("imageUrl", VString "u")])] in
  let req_body :=
    VObject [("imageUrl", VString "other"); ("brand", VString "b");
             ("position", VString "p"); ("type", VString "t")] in
  emissions_of (handle (PostBannerData 2 req_body) s) = []
  ∧ imageHistory (state_of (handle (PostBannerData 2 req_body) s))
    = imageHistory s.
Proof.
  intros s req_body.
  apply (proj1 (banner_broadcast_on_match 2 req_body
                  (Banner.mk (VString "other") (VString "b") (VString "p")
                             (VString "t") 2) s
                  (ex_intro _ [PostImage 1 (VObject [("imageUrl", VString "u")])]
                            eq_refl) eq_refl)).
  repeat constructor. unfold url_matches. simpl. discriminate.
Defined.

(** ** Attaching to an image *)

Lemma put_other (m m' : value) (k : string) (v : value) :
  put m k v = Some m' →
  (∀ j, k ≠ j → get m' j = get m j) ∧ (∀ n, element m' n = element m n).
Proof.
  destruct m; simpl; intros [= <-]; (split; [|done]); try done;
    intros j Hj; simpl; by rewrite lookup_store_prop_ne.
Qed.

(** X15: attaching a banner touches one property only.  When an accepted
    banner post finds its image (the first whose [url] is the [imageUrl])
    and that image's [metadata] is truthy, the image that takes its place
    has the same [url] and [timestamp], every [metadata] property other
    than [bannerData] reads as before, and so does every element when the
    [metadata] is an array; the images before and after it are the same. *)
Theorem banner_attach_keeps_metadata (now : Z) (req_body : value)
    (bd : Banner.t) (s : state) (l1 l2 : list Image.t) (img : Image.t) :
  accepted_banner now req_body = Some bd →
  imageHistory s = l1 ++ img :: l2 →
  Forall (λ i, ¬ url_matches (Banner.imageUrl bd) i) l1 →
  url_matches (Banner.imageUrl bd) img →
  truthy (Image.metadata img) = true →
  ∃ img',
    imageHistory (state_of (handle (PostBannerData now req_body) s))
    = l1 ++ img' :: l2
    ∧ Image.url img' = Image.url img
    ∧ Image.timestamp img' = Image.timestamp img
    ∧ (∀ k, k ≠ "bannerData" →
            get (Image.metadata img') k = get (Image.metadata img) k)
    ∧ (∀ n, element (Image.metadata img') n = element (Image.metadata img) n).
Proof.
  intros Hbd Hs Hl1 Hm Ht. simpl.
  rewrite (post_banner_data_accepted _ _ _ s Hbd).
  unfold attach_banner, state_of.
  rewrite Hs, (findIndex_url_first _ _ _ _ Hl1 Hm).
  destruct (put (Image.metadata img) "bannerData" (Banner.to_value bd))
    as [m|] eqn:Hput; [|by destruct (Image.metadata img)].
  simpl. rewrite insert_app_r_alt by done. rewrite Nat.sub_diag. simpl.
  exists (Image.with_metadata img m).
  destruct (put_other _ _ _ _ Hput) as [Hget Helem].
  split_and!; try done. intros k Hk. apply Hget. congruence.
Qed.

Lemma banner_attach_keeps_metadata_witness :
  let img := Image.mk (VString "u")
               (VObject [("w", VNumber 640); ("bannerData", VString "old")]) 1 in
  let s := State [] [Image.mk (VString "v") (VObject []) 2; img] [] in
  let req_body :=
    VObject [("imageUrl", VString "u"); ("brand", VString "b");
             ("position", VString "p"); ("type", VString "t")] in
  ∃ img',
    imageHistory (state_of (handle (PostBannerData 3 req_body) s))
    = [Image.mk (VString "v") (VObject []) 2] ++ img' :: []
    ∧ Image.url img' = Image.url img
    ∧ Image.timestamp img' = Image.timestamp img
    ∧ (∀ k, k ≠ "bannerData" →
            get (Image.metadata img') k = get (Image.metadata img) k)
    ∧ (∀ n, element (Image.metadata img') n = element (Image.metadata img) n).
Proof.
  intros img s req_body.
  apply (banner_attach_keeps_metadata 3 req_body
           (Banner.mk (VString "u") (VString "b") (VString "p") (VString "t") 3)
           s [Image.mk (VString "v") (VObject []) 2] [] img);
    try reflexivity.
  repeat constructor. unfold url_matches. simpl. discriminate.
Defined.

Lemma post_banner_data_effect_witness :
  let img := Image.mk (VString "u") (VArray [VNumber 1] []) 1 in
  let s := State [] [img] [] in
  let req_body :=
    VObject [("imageUrl", VString "u"); ("brand", VString "b");
             ("position", VString "p"); ("type", VString "t")] in
  let bd :=
    Banner.mk (VString "u") (VString "b") (VString "p") (VString "t") 3 in
  ∃ img',
    state_of (handle (PostBannerData 3 req_body) s) = State [] [img'] [bd]
    ∧ Image.url img' = Image.url img
    ∧ Image.timestamp img' = Image.timestamp img
    ∧ bannerData_of img' = Some (Banner.to_value bd).
Proof.
  intros img s req_body bd.
  by apply (proj1 (proj2 (post_banner_data_effect 3 req_body bd s eq_refl)
                     [] img [] eq_refl (Forall_nil_2 _) eq_refl)).
Defined.

(** ** Replies and audiences *)



(** X17: who is addressed.  The four [GET] routes emit nothing; whatever
    any HTTP route emits is a broadcast to all clients, and whatever the
    connection handler emits goes to the new socket only. *)
Theorem emissions_by_route (r : request) (s : state) :
  (∀ e, e ∈ emissions_of (handle r s) →
        (to e = ThisSocket ↔ r = Connection)
        ∧ (to e = AllClients ↔ r ≠ Connection))
  ∧ match r with
    | GetCoordinates | GetImages | GetBannerData | GetBannerDataFor _ =>
        emissions_of (handle r s) = []
    | _ => True
    end.
Proof.
  split.
  - intros e. destruct r; simpl.
    + destruct (accepted_coordinate now req_body) as [c|] eqn:E.
      * rewrite (post_coordinates_accepted _ _ _ _ E).
        intros ->%list_elem_of_singleton. by simpl.
      * rewrite (post_coordinates_rejected_silent _ _ s E).
        by intros ?%elem_of_nil.
    + destruct (accepted_image now req_body) as [i|] eqn:E.
      * rewrite (post_image_accepted _ _ _ _ E). unfold emissions_of. simpl.
        rewrite !elem_of_cons, elem_of_nil. by intros [-> | [-> | []]].
      * rewrite (post_image_rejected_silent _ _ s E). by intros ?%elem_of_nil.
    + destruct (accepted_banner now req_body) as [bd|] eqn:E.
      * rewrite (post_banner_data_accepted _ _ _ s E).
        destruct (attach_banner_emissions bd s) as [-> | ->].
        -- by intros ?%elem_of_nil.
        -- by intros ->%list_elem_of_singleton.
      * rewrite (proj2 (post_banner_data_rejected _ _ s E)).
        by intros ?%elem_of_nil.
    + by intros ?%elem_of_nil.
    + by intros ?%elem_of_nil.
    + by intros ?%elem_of_nil.
    + unfold get_banner_data_for. case_match; by intros ?%elem_of_nil.
    + by intros ->%list_elem_of_singleton.
    + by intros ->%list_elem_of_singleton.
    + unfold delete_all, emissions_of. simpl.
      rewrite !elem_of_cons, elem_of_nil. by intros [-> | [-> | []]].
    + unfold on_connection, emissions_of. simpl.
      destruct (coordinateHistory s), (imageHistory s); simpl;
        rewrite ?elem_of_cons, ?elem_of_nil; intros H;
        repeat (destruct H as [-> | H]; [by split|]); done.
  - destruct r; simpl; try done.
    unfold get_banner_data_for. by case_match.
Qed.

Lemma emissions_by_route_witness :
  let s := State [] [Image.mk (VString "u") (VObject []) 1] [] in
  let e := Emit ThisSocket "image-history" (Images (imageHistory s)) in
  e ∈ emissions_of (handle Connection s) ∧ to e = ThisSocket.
Proof.
  intros s e.
  assert (e ∈ emissions_of (handle Connection s)) as He
    by apply list_elem_of_here.
  split; [done|].
  by apply (proj1 (proj1 (emissions_by_route Connection s) e He)).
Defined.
